(** * Wa-Tor speedup chart: the script [plot_results.py] and its specification

    The script is a straight line of Python: two literal lists, one list
    comprehension that divides the first elapsed time by every elapsed
    time, and a sequence of calls into [matplotlib.pyplot] that ends with
    [savefig] and [print].

    The embedding follows the script statement by statement.
    - Python floats are IEEE 754 binary64 values: [spec_float] of the
      standard library at precision 53 and maximal exponent 1024, with
      its division [SFdiv] (round to nearest, ties to even).
    - Exceptions and the effects on the outside world (the chart under
      construction, the files written, the console) are threaded through
      a state-and-error monad [M].
    - [matplotlib.pyplot] is an external collaborator: each call is
      recorded, with its arguments, in the chart of the world.  What the
      library does with integers too large for it (it may raise) is a
      parameter of the model, as is the state of the file system. *)

From Stdlib Require Import ZArith String Ascii List Bool Lia.
From Stdlib Require Import Floats.SpecFloat.
From Stdlib Require Import QArith Qabs.
From Stdlib Require Import DecimalString.
Import ListNotations.

Local Open Scope Z_scope.

(* ================================================================== *)
(** ** Python floats *)
(* ================================================================== *)

Module Float64.

Definition prec : Z := 53.
Definition emax : Z := 1024.

(** A Python [float]. *)
Definition float : Type := spec_float.

(** The values a Python float can hold: mantissa and exponent in the
    binary64 range. *)
Definition valid (x : float) : bool := valid_binary prec emax x.

Definition zero : float := S754_zero false.
Definition one : float := S754_finite false 4503599627370496 (-52).

(** [x / y] on the floating-point unit. *)
Definition div (x y : float) : float := SFdiv prec emax x y.

(** [x == y], [x < y], [x <= y] and their mirror images. *)
Definition eqb (x y : float) : bool := SFeqb x y.
Definition ltb (x y : float) : bool := SFltb x y.
Definition leb (x y : float) : bool := SFleb x y.
Definition gtb (x y : float) : bool := SFltb y x.
Definition geb (x y : float) : bool := SFleb y x.

(** A strictly positive real number held in a float: finite, positive,
    in range.  Infinities and NaN are not real numbers. *)
Definition positive_real (x : float) : bool :=
  match x with
  | S754_finite false _ _ => valid x
  | _ => false
  end.

(** The float denoted by the decimal literal [digits * 10^(-scale)]:
    [of_decimal 3283 2] is the literal [32.83].  The parser returns the
    binary64 value nearest to the decimal number (ties to even), which
    is the correctly rounded quotient of the two integers. *)
Definition of_decimal (digits : positive) (scale : nat) : float :=
  div (S754_finite false digits 0)
      (S754_finite false (Z.to_pos (10 ^ Z.of_nat scale)) 0).

(** The exact value of a finite float. *)
Definition to_Q (x : float) : option Q :=
  match x with
  | S754_zero _ => Some 0%Q
  | S754_finite s m e =>
      let a := if s then Zneg m else Zpos m in
      Some (match e with
            | Zneg k => Qmake a (Pos.pow 2 k)
            | _ => inject_Z (a * 2 ^ e)
            end)
  | _ => None
  end.

(** [|x - d| <= tol], on exact values. *)
Definition close_to (x : float) (d tol : Q) : bool :=
  match to_Q x with
  | Some q => Qle_bool (Qabs (q - d)) tol
  | None => false
  end.

(** [x] is a positive float with a negative exponent whose distance to
    the rational [q] is at most half a unit in its last place. *)
Definition nearest_to (x : float) (q : Q) : bool :=
  match x with
  | S754_finite false m (Zneg k) =>
      Qle_bool (Qabs (Qmake (Zpos m) (Pos.pow 2 k) - q)) (Qmake 1 (Pos.pow 2 (k + 1)))
  | _ => false
  end.

(** *** Formatting: [format(x, '.2f')] *)

(** The integer nearest to [n / d], ties to even ([0 < d]). *)
Definition round_half_even (n d : Z) : Z :=
  let q := n / d in
  match 2 * (n mod d) ?= d with
  | Lt => q
  | Gt => q + 1
  | Eq => if Z.even q then q else q + 1
  end.

(** The integer nearest to [m * 2^e * 100]. *)
Definition hundredths (m : positive) (e : Z) : Z :=
  match e with
  | Zneg k => round_half_even (Zpos m * 100) (Zpos (Pos.pow 2 k))
  | _ => Zpos m * 2 ^ e * 100
  end.

Definition decimal (n : Z) : string :=
  NilZero.string_of_uint (N.to_uint (Z.to_N n)).

Definition two_digits (n : Z) : string :=
  if n <? 10 then String "0" (decimal n) else decimal n.

Definition sign_prefix (s : bool) : string :=
  if s then "-"%string else EmptyString.

(** The conversion is correctly rounded: the decimal string shows the
    exact binary value rounded to two fractional digits, ties to even. *)
Definition format_2f (x : float) : string :=
  match x with
  | S754_nan => "nan"
  | S754_infinity s => sign_prefix s ++ "inf"
  | S754_zero s => sign_prefix s ++ "0.00"
  | S754_finite s m e =>
      let n := hundredths m e in
      sign_prefix s ++ decimal (n / 100) ++ "." ++ two_digits (n mod 100)
  end%string.

End Float64.

Import Float64.

(* ================================================================== *)
(** ** Rounding, step by step *)
(* ================================================================== *)

(** The library's division scales the numerator, divides the integers,
    shifts the quotient to the exponent of the format while it records
    what is cut off, rounds to nearest even and renormalises.  The
    definitions below name these steps. *)

(** The smallest exponent of binary64 and the exponent of the format at
    a given magnitude. *)
Definition emin : Z := -1074.
Definition fexp (e : Z) : Z := Z.max (e - prec) emin.

(** Where [r / b] sits in the unit interval. *)
Definition locate (r b : Z) : location :=
  if r =? 0 then loc_Exact else loc_Inexact (2 * r ?= b).

(** [a / b] cut to an integer, with the position of what was cut off. *)
Definition truncate (a b : Z) : shr_record :=
  shr_record_of_loc (a / b) (locate (a mod b) b).

(** The last steps of rounding: renormalise, then check the range. *)
Definition finish (sx : bool) (m e : Z) : spec_float :=
  let '(mrs, e') := shr_fexp prec emax m e loc_Exact in
  match shr_m mrs with
  | Z0 => S754_zero sx
  | Zpos p => if e' <=? emax - prec then S754_finite sx p e' else S754_infinity sx
  | Zneg _ => S754_nan
  end.

(** The exponent the division starts from. *)
Definition div_exponent (m1 : positive) (e1 : Z) (m2 : positive) (e2 : Z) : Z :=
  Z.min (fexp (Zpos (digits2_pos m1) + e1 - (Zpos (digits2_pos m2) + e2))) (e1 - e2).

(** [a / b * 2^e] is the exact quotient of [m1 * 2^e1] by [m2 * 2^e2]. *)
Definition represents (m1 : positive) (e1 : Z) (m2 : positive) (e2 : Z)
    (a b e : Z) : Prop :=
  exists s n, 0 <= s /\ 0 <= n /\
    a = Zpos m1 * 2 ^ s /\ b = Zpos m2 * 2 ^ n /\ s - n + e = e1 - e2.

(** [e] is the exponent binary64 gives to the value [a / b * 2^e]: at
    most 53 digits before the point, and exactly 53 above the subnormal
    range. *)
Definition in_format (a b e : Z) : Prop :=
  emin <= e /\ a < b * 2 ^ prec /\ (emin < e -> b * 2 ^ (prec - 1) <= a).

(** A mantissa as rounding leaves it: at most [2^53], and at least [2^52]
    above the subnormal range. *)
Definition rounded (m e : Z) : Prop :=
  0 <= m <= 2 ^ prec /\ emin <= e /\ (emin < e -> 2 ^ (prec - 1) <= m).

(* ================================================================== *)
(** ** Python values, exceptions, and the outside world *)
(* ================================================================== *)

(** The numbers handed to the plotting library: [threads] holds ints,
    [speedups] holds floats. *)
Inductive pynum : Type :=
| PyInt (n : Z)
| PyFloat (x : float).

Inductive exn : Type :=
| IndexError          (* [times[0]] on an empty list *)
| ZeroDivisionError   (* [base_time / t] with [t == 0] *)
| ValueError          (* [plot] with x and y of different lengths;
                         pyplot on an integer it cannot handle *)
| OverflowError       (* pyplot on an integer too large for a double *)
| TypeError           (* pyplot on an integer too large for a machine word *)
| OSError.            (* [savefig] to a path that cannot be written *)

Inductive result (A : Type) : Type :=
| Ok (a : A)
| Raise (e : exn).
Arguments Ok {A} a.
Arguments Raise {A} e.

(** Keyword arguments of [plt.plot]. *)
Record plot_style : Type := {
  fmt : option string;
  marker : option string;
  linewidth : option Z;
  markersize : option Z;
  color : option string;
  label : string;
  alpha : option float
}.

(** One call into [matplotlib.pyplot], as the script makes it. *)
Inductive call : Type :=
| Figure (figsize : Z * Z)
| Plot (xs ys : list pynum) (style : plot_style)
| Annotate (text : string) (xy : pynum * pynum) (textcoords : string)
           (xytext : Z * Z) (ha : string) (fontsize : Z) (fontweight : string)
| Title (text : string) (fontsize : Z)
| Xlabel (text : string) (fontsize : Z)
| Ylabel (text : string) (fontsize : Z)
| Xticks (ticks : list pynum)
| Grid (visible : bool) (linestyle : string) (grid_alpha : float)
| Legend.

(** An image written by [savefig]: where, at which resolution, and the
    chart it shows. *)
Record image : Type := {
  path : string;
  dpi : Z;
  content : list call
}.

(** What the script can change: the chart being built (calls in the order
    they were made), the files on disk, the lines on the console. *)
Record world : Type := {
  chart : list call;
  files : list image;
  stdout : list string
}.

Definition initial_world : world :=
  {| chart := []; files := []; stdout := [] |}.

(** ** The monad of the script: state and exceptions *)

Definition M (A : Type) : Type := world -> world * result A.

Definition ret {A} (a : A) : M A := fun w => (w, Ok a).

Definition raise {A} (e : exn) : M A := fun w => (w, Raise e).

Definition bind {A B} (c : M A) (k : A -> M B) : M B :=
  fun w =>
    match c w with
    | (w', Ok a) => k a w'
    | (w', Raise e) => (w', Raise e)
    end.

Declare Scope py_scope.
Delimit Scope py_scope with py.
Notation "x <- c ;; k" := (bind c (fun x => k))
  (at level 61, c at next level, right associativity) : py_scope.
Notation "c ;; k" := (bind c (fun _ => k))
  (at level 61, right associativity) : py_scope.
Local Open Scope py_scope.

(** A list comprehension [[f x for x in l]]: left to right, the first
    exception ends it. *)
Fixpoint comprehension {A B} (f : A -> M B) (l : list A) : M (list B) :=
  match l with
  | [] => ret []
  | x :: xs => y <- f x ;; ys <- comprehension f xs ;; ret (y :: ys)
  end.

(** A [for] loop over a list. *)
Fixpoint for_each {A} (l : list A) (body : A -> M unit) : M unit :=
  match l with
  | [] => ret tt
  | x :: xs => body x ;; for_each xs body
  end.

(** [l[i]] for a non-negative index. *)
Definition getitem {A} (l : list A) (i : nat) : M A :=
  match nth_error l i with
  | Some x => ret x
  | None => raise IndexError
  end.

(** [x / y] on floats: a zero divisor of either sign raises. *)
Definition truediv (x y : float) : M float :=
  if eqb y zero then raise ZeroDivisionError else ret (div x y).

(** [zip]. *)
Definition zip {A B} (l : list A) (l' : list B) : list (A * B) := combine l l'.

(** [print]. *)
Definition print (s : string) : M unit :=
  fun w => ({| chart := chart w; files := files w; stdout := stdout w ++ [s] |}, Ok tt).

(** ** The plotting library and large integers *)

(** The library stores the integers it is given in machine words and
    turns them into doubles.  An integer a double holds exactly, below
    [2^53] in absolute value, goes through every call unchanged.  On a
    larger one a call that receives it may raise: [OverflowError] when
    the integer is too large for a double, [TypeError] or [ValueError]
    when it does not fit the machine word the library chose.  Which call
    raises on which integers is the library's business, not the
    script's: like the file system, it is a parameter of the model. *)
Inductive library_error : Type :=
| Overflow
| WrongType
| BadValue.

Definition exn_of (e : library_error) : exn :=
  match e with
  | Overflow => OverflowError
  | WrongType => TypeError
  | BadValue => ValueError
  end.

(** The integers a double holds exactly. *)
Definition exact_int (n : Z) : bool := Z.abs n <? 2 ^ 53.

Definition safe_num (v : pynum) : bool :=
  match v with
  | PyInt n => exact_int n
  | PyFloat _ => true
  end.

(** A call whose data the library takes as it is. *)
Definition safe_call (c : call) : bool :=
  match c with
  | Plot xs ys _ => forallb safe_num xs && forallb safe_num ys
  | Annotate _ (x, y) _ _ _ _ _ => safe_num x && safe_num y
  | Xticks ticks => forallb safe_num ticks
  | _ => true
  end.

Definition safe_chart (c : list call) : bool := forallb safe_call c.

(** What the library does with larger integers: whether a call raises,
    given the calls made before it, and whether drawing the chart for
    [savefig] raises. *)
Record library : Type := {
  on_call : list call -> call -> option library_error;
  on_draw : list call -> option library_error
}.

(** The error of a call, if it raises. *)
Definition blocked (lib : library) (before : list call) (c : call)
  : option library_error :=
  if safe_call c then None else on_call lib before c.

(** The error of drawing a chart, if it raises. *)
Definition undrawable (lib : library) (c : list call) : option library_error :=
  if safe_chart c then None else on_draw lib c.

(** ** [matplotlib.pyplot] *)

Module plt.

Definition record (c : call) : M unit :=
  fun w => ({| chart := chart w ++ [c]; files := files w; stdout := stdout w |}, Ok tt).

(** A call that receives data: it raises what the library raises on that
    data, or is recorded. *)
Definition call_with (lib : library) (c : call) : M unit :=
  fun w =>
    match blocked lib (chart w) c with
    | Some e => (w, Raise (exn_of e))
    | None => record c w
    end.

Definition figure (figsize : Z * Z) : M unit := record (Figure figsize).

(** [plot] raises what the library raises on the data; it refuses x and
    y of different lengths; otherwise the curve is recorded. *)
Definition plot (lib : library) (xs ys : list pynum) (style : plot_style) : M unit :=
  fun w =>
    match blocked lib (chart w) (Plot xs ys style) with
    | Some e => (w, Raise (exn_of e))
    | None =>
        if Nat.eqb (length xs) (length ys) then record (Plot xs ys style) w
        else (w, Raise ValueError)
    end.

Definition annotate (lib : library) (text : string) (xy : pynum * pynum)
    (textcoords : string) (xytext : Z * Z) (ha : string) (fontsize : Z)
    (fontweight : string) : M unit :=
  call_with lib (Annotate text xy textcoords xytext ha fontsize fontweight).

Definition title (text : string) (fontsize : Z) : M unit := record (Title text fontsize).
Definition xlabel (text : string) (fontsize : Z) : M unit := record (Xlabel text fontsize).
Definition ylabel (text : string) (fontsize : Z) : M unit := record (Ylabel text fontsize).
Definition xticks (lib : library) (ticks : list pynum) : M unit :=
  call_with lib (Xticks ticks).
Definition grid (visible : bool) (linestyle : string) (a : float) : M unit :=
  record (Grid visible linestyle a).
Definition legend : M unit := record Legend.

(** [savefig] draws the current chart and writes it to [fname]; it
    raises when the drawing raises or when the path cannot be written;
    [writable] is the state of the file system. *)
Definition savefig (lib : library) (writable : string -> bool)
    (fname : string) (d : Z) : M unit :=
  fun w =>
    match undrawable lib (chart w) with
    | Some e => (w, Raise (exn_of e))
    | None =>
        if writable fname then
          ({| chart := chart w;
              files := files w ++ [{| path := fname; dpi := d; content := chart w |}];
              stdout := stdout w |}, Ok tt)
        else (w, Raise OSError)
    end.

End plt.

(* ================================================================== *)
(** ** The script *)
(* ================================================================== *)

(** The data model of the specification: a measurement pairs a worker
    count with an elapsed time; a speedup point pairs a worker count with
    a speedup.  The script keeps the two columns in two lists, [threads]
    and [times]. *)
Record Measurement : Type := {
  workers : Z;
  elapsed_seconds : float
}.

Definition SpeedupPoint : Type := (Z * float)%type.

Definition ints (l : list Z) : list pynum := map PyInt l.
Definition floats (l : list float) : list pynum := map PyFloat l.

(** Lines 7 and 8:
    [base_time = times[0]]
    [speedups = [base_time / t for t in times]] *)
Definition speedups (times : list float) : M (list float) :=
  base_time <- getitem times 0 ;;
  comprehension (fun t => truediv base_time t) times.

(** The operation [compute_speedups] of the specification: the speedups
    of a sequence of measurements, each paired with its worker count, the
    way the script pairs them with [zip(threads, speedups)]. *)
Definition compute_speedups (measurements : list Measurement)
  : M (list SpeedupPoint) :=
  s <- speedups (map elapsed_seconds measurements) ;;
  ret (zip (map workers measurements) s).

(** Line 39: [output_filename = 'results_graph.png'] *)
Definition output_filename : string := "results_graph.png".

Section Script.

(** How the plotting library treats large integers. *)
Variable lib : library.

(** Which paths can be written: the state of the file system. *)
Variable writable : string -> bool.

(** Lines 10 to 41: the chart, the image, the message. *)
Definition render (threads : list Z) (speedups : list float) : M unit :=
  plt.figure (10, 6) ;;
  plt.plot lib (ints threads) (ints threads)
    {| fmt := Some "k--"%string; marker := None; linewidth := None;
       markersize := None; color := None;
       label := "Ideal Linear Speedup"; alpha := Some (of_decimal 5 1) |} ;;
  plt.plot lib (ints threads) (floats speedups)
    {| fmt := None; marker := Some "o"%string; linewidth := Some 2;
       markersize := Some 8; color := Some "#007acc"%string;
       label := "Actual Speedup"; alpha := None |} ;;
  for_each (zip threads speedups) (fun '(x, y) =>
    plt.annotate lib (format_2f y ++ "x")%string (PyInt x, PyFloat y)
      "offset points" (0, 10) "center" 10 "bold") ;;
  plt.title "Wa-Tor Simulation Parallel Speedup" 14 ;;
  plt.xlabel "Number of Threads (Workers)" 12 ;;
  plt.ylabel "Speedup Factor" 12 ;;
  plt.xticks lib (ints threads) ;;
  plt.grid true "--" (of_decimal 7 1) ;;
  plt.legend ;;
  plt.savefig lib writable output_filename 300 ;;
  print ("Success! Graph saved as " ++ output_filename)%string.

(** The whole script, for given [threads] and [times]. *)
Definition script (threads : list Z) (times : list float) : M unit :=
  s <- speedups times ;;
  render threads s.

(** The script on a dataset of measurements. *)
Definition run (measurements : list Measurement) : world * result unit :=
  script (map workers measurements) (map elapsed_seconds measurements)
    initial_world.

End Script.

(** Lines 3 and 4: the literal data. *)
Definition threads : list Z := [1; 2; 4; 8].
Definition times : list float :=
  [of_decimal 3283 2; of_decimal 1595 2; of_decimal 956 2; of_decimal 631 2].

Definition sample : list Measurement :=
  [ {| workers := 1; elapsed_seconds := of_decimal 3283 2 |};
    {| workers := 2; elapsed_seconds := of_decimal 1595 2 |};
    {| workers := 4; elapsed_seconds := of_decimal 956 2 |};
    {| workers := 8; elapsed_seconds := of_decimal 631 2 |} ].

(** The program as it is run. *)
Definition main (lib : library) (writable : string -> bool) : world * result unit :=
  script lib writable threads times initial_world.

(** ** Reading a chart *)

(** What the calls recorded so far make of the chart: the last title and
    labels win, ticks are the last ones set, annotations and curves
    accumulate. *)
Fixpoint last_some {A} (f : call -> option A) (c : list call) : option A :=
  match c with
  | [] => None
  | x :: rest =>
      match last_some f rest with
      | Some a => Some a
      | None => f x
      end
  end.

Definition chart_title (c : list call) : option string :=
  last_some (fun x => match x with Title t _ => Some t | _ => None end) c.
Definition chart_xlabel (c : list call) : option string :=
  last_some (fun x => match x with Xlabel t _ => Some t | _ => None end) c.
Definition chart_ylabel (c : list call) : option string :=
  last_some (fun x => match x with Ylabel t _ => Some t | _ => None end) c.
Definition chart_xticks (c : list call) : option (list pynum) :=
  last_some (fun x => match x with Xticks t => Some t | _ => None end) c.

(** The markers: the points of every curve drawn with a marker. *)
Definition chart_markers (c : list call) : list (pynum * pynum) :=
  flat_map (fun x => match x with
                     | Plot xs ys {| marker := Some _ |} => combine xs ys
                     | _ => []
                     end) c.

(** The annotations: text, annotated point, placement of the text. *)
Definition chart_annotations (c : list call)
  : list (string * (pynum * pynum) * (string * (Z * Z) * string)) :=
  flat_map (fun x => match x with
                     | Annotate t xy tc off ha _ _ => [(t, xy, (tc, off, ha))]
                     | _ => []
                     end) c.

(** The worker counts strictly increase. *)
Fixpoint strictly_increasing (l : list Z) : bool :=
  match l with
  | [] => true
  | x :: rest =>
      match rest with
      | [] => true
      | y :: _ => (x <? y) && strictly_increasing rest
      end
  end.

(** The calls [render] makes, in order, up to [savefig]. *)
Definition render_calls (threads : list Z) (speedups : list float) : list call :=
  [ Figure (10, 6);
    Plot (ints threads) (ints threads)
      {| fmt := Some "k--"%string; marker := None; linewidth := None;
         markersize := None; color := None;
         label := "Ideal Linear Speedup"; alpha := Some (of_decimal 5 1) |};
    Plot (ints threads) (floats speedups)
      {| fmt := None; marker := Some "o"%string; linewidth := Some 2;
         markersize := Some 8; color := Some "#007acc"%string;
         label := "Actual Speedup"; alpha := None |} ]
  ++ map (fun '(x, y) =>
            Annotate (format_2f y ++ "x")%string (PyInt x, PyFloat y)
              "offset points" (0, 10) "center" 10 "bold")
         (zip threads speedups)
  ++ [ Title "Wa-Tor Simulation Parallel Speedup" 14;
       Xlabel "Number of Threads (Workers)" 12;
       Ylabel "Speedup Factor" 12;
       Xticks (ints threads);
       Grid true "--" (of_decimal 7 1);
       Legend ].

(** The datasets the specification calls invalid. *)
Definition nonpositive (x : float) : bool := leb x zero.

Definition invalid_input (ms : list Measurement) : Prop :=
  ms = []
  \/ strictly_increasing (map workers ms) = false
  \/ Exists (fun m => nonpositive (elapsed_seconds m) = true) ms.

Definition has_zero (ms : list Measurement) : Prop :=
  Exists (fun m => eqb (elapsed_seconds m) zero = true) ms.

Definition no_zero (ms : list Measurement) : Prop :=
  Forall (fun m => eqb (elapsed_seconds m) zero = false) ms.

Definition all_positive (ms : list Measurement) : Prop :=
  Forall (fun m => positive_real (elapsed_seconds m) = true) ms.


(** ** Worlds after a run *)

Definition with_chart (w : world) (c : list call) : world :=
  {| chart := c; files := files w; stdout := stdout w |}.

(** The line [print] writes. *)
Definition confirmation : string :=
  ("Success! Graph saved as " ++ output_filename)%string.

(** The world after a run of [render] that went through. *)
Definition rendered (w : world) (c : list call) : world :=
  {| chart := chart w ++ c;
     files := files w ++ [{| path := output_filename; dpi := 300;
                             content := chart w ++ c |}];
     stdout := stdout w ++ [confirmation] |}.

(** Two calls of [compute_speedups] in a row. *)
Definition call_twice (ms : list Measurement)
  : M (list SpeedupPoint * list SpeedupPoint) :=
  x <- compute_speedups ms ;;
  y <- compute_speedups ms ;;
  ret (x, y).

Definition both {A} (r : result A) : result (A * A) :=
  match r with
  | Ok a => Ok (a, a)
  | Raise e => Raise e
  end.

(** The speedup column of an outcome of [compute_speedups]. *)
Definition speedup_values (r : world * result (list SpeedupPoint))
  : result (list float) :=
  match snd r with
  | Ok out => Ok (map snd out)
  | Raise e => Raise e
  end.

(** The worker counts are integers a double holds exactly. *)
Definition exact_workers (ms : list Measurement) : Prop :=
  Forall (fun m => exact_int (workers m) = true) ms.

(** How a run can end once [speedups] is computed: the error comes from
    the plotting library or from the file system. *)
Definition raised_by_rendering (e : exn) : Prop :=
  e = OSError \/ exists le, e = exn_of le.

(** The first curve [render] draws. *)
Definition ideal_curve (threads : list Z) : call :=
  Plot (ints threads) (ints threads)
    {| fmt := Some "k--"%string; marker := None; linewidth := None;
       markersize := None; color := None;
       label := "Ideal Linear Speedup"; alpha := Some (of_decimal 5 1) |}.

(** A library that refuses every integer a double does not hold exactly. *)
Definition strict : library :=
  {| on_call := fun _ _ => Some Overflow;
     on_draw := fun _ => Some Overflow |}.

(** ** Two more datasets *)

(** Worker counts out of order. *)
Definition unordered : list Measurement :=
  [ {| workers := 2; elapsed_seconds := of_decimal 10 0 |};
    {| workers := 1; elapsed_seconds := of_decimal 20 0 |} ].

(** Two elapsed times one unit in the last place apart:
    [8.0, 7.0, 7.000000000000001]. *)
Definition tied : list Measurement :=
  [ {| workers := 1; elapsed_seconds := of_decimal 8 0 |};
    {| workers := 2; elapsed_seconds := of_decimal 7 0 |};
    {| workers := 4; elapsed_seconds := of_decimal 7000000000000001 15 |} ].

(* ================================================================== *)
(** ** More ways to read a chart and a dataset *)
(* ================================================================== *)

(** The curves of a chart: x data, y data and legend label of every
    [plot], in the order they were drawn. *)
Definition chart_curves (c : list call)
  : list (list pynum * list pynum * string) :=
  flat_map (fun x => match x with
                     | Plot xs ys st => [(xs, ys, label st)]
                     | _ => []
                     end) c.

(** The marker and the annotation that [render] draws for one speedup
    point. *)
Definition marker_of (p : SpeedupPoint) : pynum * pynum :=
  (PyInt (fst p), PyFloat (snd p)).

Definition annotation_of (p : SpeedupPoint)
  : string * (pynum * pynum) * (string * (Z * Z) * string) :=
  ((format_2f (snd p) ++ "x")%string, marker_of p,
   ("offset points"%string, (0, 10), "center"%string)).

(* ================================================================== *)
(** ** Binary64 division *)
(* ================================================================== *)

(** *** Counting digits *)

Lemma digits2_size p : digits2_pos p = Pos.size p.
Proof. induction p; cbn; congruence. Qed.

Lemma digits2_bounds p :
  2 ^ (Zpos (digits2_pos p) - 1) <= Zpos p < 2 ^ Zpos (digits2_pos p).
Proof.
  rewrite digits2_size. split.
  - pose proof (Pos.size_le p) as H.
    assert (Hs : Zpos (2 ^ Pos.size p) = 2 * 2 ^ (Zpos (Pos.size p) - 1)).
    { rewrite Pos2Z.inj_pow. rewrite <- Z.pow_succ_r by lia. f_equal. lia. }
    assert (Zpos (2 ^ Pos.size p) <= Zpos p~0) by (apply Pos2Z.pos_le_pos, H).
    lia.
  - pose proof (Pos.size_gt p) as H.
    apply Pos2Z.pos_lt_pos in H. rewrite Pos2Z.inj_pow in H. exact H.
Qed.

Lemma Zdigits2_bounds q :
  0 < q -> 2 ^ (Zdigits2 q - 1) <= q < 2 ^ Zdigits2 q.
Proof. destruct q; try lia. intros _. apply digits2_bounds. Qed.

Lemma Zdigits2_pos q : 0 < q -> 0 < Zdigits2 q.
Proof. destruct q; cbn; lia. Qed.

(** A number below [2^k] has at most [k] digits; one from [2^(k-1)] on has at least [k]. *)
Lemma Zdigits2_le q k : 0 < q -> q < 2 ^ k -> Zdigits2 q <= k.
Proof.
  intros Hq Hk. destruct (Zdigits2_bounds q Hq) as [Hlo _].
  destruct (Z_le_gt_dec (Zdigits2 q) k) as [|Hgt]; [assumption|exfalso].
  assert (0 <= k). { destruct (Z_le_gt_dec 0 k); [assumption|]. rewrite Z.pow_neg_r in Hk by lia. lia. }
  assert (2 ^ k <= 2 ^ (Zdigits2 q - 1)) by (apply Z.pow_le_mono_r; lia).
  lia.
Qed.

Lemma Zdigits2_ge q k : 0 < q -> 2 ^ (k - 1) <= q -> k <= Zdigits2 q.
Proof.
  intros Hq Hk. destruct (Zdigits2_bounds q Hq) as [_ Hhi].
  pose proof (Zdigits2_pos q Hq).
  destruct (Z_le_gt_dec k (Zdigits2 q)) as [|Hgt]; [assumption|exfalso].
  assert (2 ^ Zdigits2 q <= 2 ^ (k - 1)) by (apply Z.pow_le_mono_r; lia).
  lia.
Qed.

Lemma new_location_locate b r :
  0 < b -> 0 <= r < b -> new_location b r = locate r b.
Proof.
  intros Hb Hr. unfold new_location, new_location_even, new_location_odd, locate.
  destruct (Z.even b) eqn:Hev; [reflexivity|].
  destruct (r =? 0); [reflexivity|]. f_equal.
  assert (Hodd : Z.odd b = true) by (rewrite <- Z.negb_even, Hev; reflexivity).
  apply Z.odd_spec in Hodd. destruct Hodd as [k Hk].
  destruct (Z.compare_spec (2 * r + 1) b), (Z.compare_spec (2 * r) b);
    try reflexivity; lia.
Qed.

Lemma loc_of_record m l : loc_of_shr_record (shr_record_of_loc m l) = l.
Proof. destruct l as [|[| |]]; reflexivity. Qed.

Lemma shr_m_record m l : shr_m (shr_record_of_loc m l) = m.
Proof. destruct l as [|[| |]]; reflexivity. Qed.

(** One step of [shr] on a record: halve the mantissa, the bit that leaves
    becomes the round bit, the old round and sticky bits merge. *)
Lemma shr_1_spec m r s :
  0 <= m ->
  shr_1 {| shr_m := m; shr_r := r; shr_s := s |}
  = {| shr_m := m / 2; shr_r := Z.odd m; shr_s := r || s |}.
Proof.
  intros Hm. destruct m as [|[p|p|]|p]; try lia; cbn [shr_1]; try reflexivity.
  - assert (H : Z.pos p~1 / 2 = Z.pos p).
    { rewrite Pos2Z.inj_xI. symmetry. apply Z.div_unique with 1; lia. }
    rewrite H. reflexivity.
  - assert (H : Z.pos p~0 / 2 = Z.pos p).
    { rewrite Pos2Z.inj_xO. symmetry. apply Z.div_unique with 0; lia. }
    rewrite H. reflexivity.
Qed.

Lemma record_of_locate q r b :
  shr_record_of_loc q (locate r b)
  = {| shr_m := q;
       shr_r := negb (r =? 0) && negb (2 * r <? b);
       shr_s := negb (r =? 0) && negb (2 * r =? b) |}.
Proof.
  unfold locate. destruct (r =? 0); [reflexivity|].
  rewrite Z.ltb_compare, Z.eqb_compare.
  destruct (2 * r ?= b); reflexivity.
Qed.

Lemma shr_1_truncate a b :
  0 <= a -> 0 < b -> shr_1 (truncate a b) = truncate a (2 * b).
Proof.
  intros Ha Hb. unfold truncate. rewrite !record_of_locate.
  assert (Hq : 0 <= a / b) by (apply Z.div_pos; lia).
  rewrite shr_1_spec by assumption.
  pose proof (Z.mod_pos_bound a b Hb) as Hr.
  pose proof (Z.div_mod a b ltac:(lia)) as Hab.
  pose proof (Z.div_mod (a / b) 2 ltac:(lia)) as Hq2.
  pose proof (Z.mod_pos_bound (a / b) 2 ltac:(lia)) as Hr2.
  assert (Hdiv : a / (2 * b) = a / b / 2).
  { rewrite Z.mul_comm. symmetry. apply Z.div_div; lia. }
  assert (Hmod : a mod (2 * b) = (a / b mod 2) * b + a mod b).
  { symmetry. apply Z.mod_unique with (a / b / 2); [left; nia|]. nia. }
  rewrite Hdiv, Hmod.
  rewrite (Zmod_odd (a / b)) in *.
  destruct (Z.odd (a / b)); f_equal;
    repeat match goal with
           | |- context [?x =? ?y] => destruct (Z.eqb_spec x y)
           | |- context [?x <? ?y] => destruct (Z.ltb_spec x y)
           end; try reflexivity; lia.
Qed.

Lemma iter_shr_1_truncate p a b :
  0 <= a -> 0 < b ->
  SpecFloat.iter_pos shr_1 p (truncate a b) = truncate a (b * 2 ^ Zpos p).
Proof.
  intros Ha. revert b. induction p as [p IH|p IH|]; intros b Hb; cbn [SpecFloat.iter_pos].
  - rewrite shr_1_truncate by assumption.
    rewrite !IH by (repeat apply Z.mul_pos_pos; try apply Z.pow_pos_nonneg; lia).
    f_equal.
    assert (H2 : 2 ^ Z.pos p~1 = 2 * 2 ^ Z.pos p * 2 ^ Z.pos p).
    { change 2 with (2 ^ 1) at 2. rewrite <- !Z.pow_add_r by lia. f_equal. lia. }
    rewrite H2. ring.
  - rewrite !IH by (try apply Z.mul_pos_pos; try apply Z.pow_pos_nonneg; lia). f_equal.
    assert (H2 : 2 ^ Z.pos p~0 = 2 ^ Z.pos p * 2 ^ Z.pos p).
    { rewrite <- Z.pow_add_r by lia. f_equal. lia. }
    rewrite H2. ring.
  - rewrite shr_1_truncate by assumption. f_equal. change (2 ^ 1) with 2. ring.
Qed.

Lemma shr_truncate a b e n :
  0 <= a -> 0 < b -> 0 <= n ->
  shr (truncate a b) e n = (truncate a (b * 2 ^ n), e + n).
Proof.
  intros Ha Hb Hn. destruct n as [|p|p]; try lia; cbn [shr].
  - rewrite Z.mul_1_r, Z.add_0_r. reflexivity.
  - rewrite iter_shr_1_truncate by assumption. reflexivity.
Qed.

Lemma fexp_spec e : SpecFloat.fexp prec emax e = fexp e.
Proof. reflexivity. Qed.

Lemma div_core m1 e1 m2 e2 :
  let e' := div_exponent m1 e1 m2 e2 in
  let a := Zpos m1 * 2 ^ (e1 - e2 - e') in
  SFdiv_core_binary prec emax (Zpos m1) e1 (Zpos m2) e2
  = (a / Zpos m2, e', locate (a mod Zpos m2) (Zpos m2)).
Proof.
  intros e' a. unfold SFdiv_core_binary.
  change (Zdigits2 (Z.pos m1)) with (Zpos (digits2_pos m1)).
  change (Zdigits2 (Z.pos m2)) with (Zpos (digits2_pos m2)).
  rewrite fexp_spec. fold (div_exponent m1 e1 m2 e2). fold e'.
  assert (Hs : 0 <= e1 - e2 - e') by (unfold e', div_exponent; lia).
  assert (Ha : match e1 - e2 - e' with
               | Z0 => Zpos m1
               | Zpos _ => Z.shiftl (Zpos m1) (e1 - e2 - e')
               | Zneg _ => 0
               end = a).
  { unfold a. destruct (e1 - e2 - e') eqn:E; try lia.
    rewrite Z.shiftl_mul_pow2 by lia. reflexivity. }
  rewrite Ha.
  unfold Z.div, Z.modulo.
  pose proof (Z_div_mod a (Zpos m2) ltac:(lia)) as Hdm.
  destruct (Z.div_eucl a (Z.pos m2)) as [q r].
  rewrite new_location_locate by lia. reflexivity.
Qed.

Lemma round_aux_finish sx a b e n :
  0 <= a -> 0 < b ->
  n = fexp (Zdigits2 (a / b) + e) - e -> 0 <= n ->
  binary_round_aux prec emax sx (a / b) e (locate (a mod b) b)
  = finish sx (round_nearest_even (a / (b * 2 ^ n))
                 (locate (a mod (b * 2 ^ n)) (b * 2 ^ n))) (e + n).
Proof.
  intros Ha Hb Hn Hn0. unfold binary_round_aux, finish.
  unfold shr_fexp at 1. rewrite fexp_spec, <- Hn.
  fold (truncate a b). rewrite shr_truncate by assumption.
  unfold truncate. rewrite shr_m_record, loc_of_record. reflexivity.
Qed.

Lemma pow2_pos x : 0 <= x -> 0 < 2 ^ x.
Proof. intros. apply Z.pow_pos_nonneg; lia. Qed.

Lemma pow2_add x y : 0 <= x -> 0 <= y -> 2 ^ (x + y) = 2 ^ x * 2 ^ y.
Proof. intros. apply Z.pow_add_r; assumption. Qed.

Lemma pow2_le x y : 0 <= x <= y -> 2 ^ x <= 2 ^ y.
Proof. intros. apply Z.pow_le_mono_r; lia. Qed.

Lemma div_quotient_lower m1 m2 s g :
  0 <= s -> g = Zpos (digits2_pos m1) + s - Zpos (digits2_pos m2) -> 1 <= g ->
  2 ^ (g - 1) <= Zpos m1 * 2 ^ s / Zpos m2.
Proof.
  intros Hs Hg Hg1.
  destruct (digits2_bounds m1) as [H1 _]. destruct (digits2_bounds m2) as [_ H2].
  apply Z.div_le_lower_bound; [lia|].
  assert (Hd2 : 0 < Zpos (digits2_pos m2)) by lia.
  assert (Hd1 : 0 < Zpos (digits2_pos m1)) by lia.
  assert (Hp : 2 ^ (Zpos (digits2_pos m1) - 1) * 2 ^ s
               = 2 ^ (g - 1) * 2 ^ Zpos (digits2_pos m2)).
  { rewrite <- !pow2_add by lia. f_equal. lia. }
  pose proof (pow2_pos s Hs). pose proof (pow2_pos (g - 1) ltac:(lia)).
  nia.
Qed.

Lemma div_rounds m1 e1 m2 e2 :
  exists a b e,
    0 < a /\ 0 < b /\ represents m1 e1 m2 e2 a b e /\ in_format a b e /\
    SFdiv prec emax (S754_finite false m1 e1) (S754_finite false m2 e2)
    = finish false (round_nearest_even (a / b) (locate (a mod b) b)) e.
Proof.
  set (e' := div_exponent m1 e1 m2 e2).
  set (s := e1 - e2 - e').
  set (a := Zpos m1 * 2 ^ s).
  set (q := a / Zpos m2).
  set (n := fexp (Zdigits2 q + e') - e').
  assert (Hs : 0 <= s) by (unfold s, e', div_exponent; lia).
  assert (Hps : 0 < 2 ^ s) by (apply pow2_pos, Hs).
  assert (Ha : 0 < a) by (unfold a; nia).
  assert (Hq : 0 <= q) by (apply Z.div_pos; lia).
  set (g := Zpos (digits2_pos m1) + s - Zpos (digits2_pos m2)).
  assert (Hlow : 1 <= g -> 2 ^ (g - 1) <= q).
  { intros Hg. apply (div_quotient_lower m1 m2 s g); auto. }
  assert (He' : e' <= fexp (g + e')).
  { unfold e' at 1, div_exponent. unfold g, s. fold e'.
    replace (Z.pos (digits2_pos m1) + (e1 - e2 - e') - Z.pos (digits2_pos m2) + e')
      with (Z.pos (digits2_pos m1) + e1 - (Z.pos (digits2_pos m2) + e2)) by lia.
    lia. }
  assert (Hdq : 0 < q -> g <= Zdigits2 q).
  { intros Hq0. destruct (Z_le_gt_dec g 1).
    - pose proof (Zdigits2_pos q Hq0). lia.
    - apply Zdigits2_ge; [assumption|]. apply Hlow. lia. }
  assert (Hq0 : q = 0 -> g <= 0).
  { intros Hz. destruct (Z_le_gt_dec g 0); [assumption|].
    pose proof (Hlow ltac:(lia)). pose proof (pow2_pos (g - 1) ltac:(lia)). lia. }
  assert (Hn : 0 <= n).
  { unfold n. destruct (Z.eq_dec q 0) as [Hz|Hz].
    - rewrite Hz. cbn [Zdigits2]. specialize (Hq0 Hz).
      unfold fexp in *. lia.
    - specialize (Hdq ltac:(lia)). unfold fexp in *. lia. }
  assert (Hpn : 0 < 2 ^ n) by (apply pow2_pos, Hn).
  exists a, (Zpos m2 * 2 ^ n), (e' + n).
  split; [assumption|]. split; [nia|]. split; [|split].
  - exists s, n. repeat split; try assumption; try reflexivity. unfold s. lia.
  - assert (Hqa : Zpos m2 * q <= a < Zpos m2 * (q + 1)).
    { unfold q. pose proof (Z.div_mod a (Zpos m2) ltac:(lia)).
      pose proof (Z.mod_pos_bound a (Zpos m2) ltac:(lia)). nia. }
    unfold in_format. split; [unfold n, fexp; lia|]. split.
    + destruct (Z.eq_dec q 0) as [Hz|Hz].
      * pose proof (pow2_pos prec ltac:(unfold prec; lia)).
        assert (Ham : a < Zpos m2) by (rewrite Hz in Hqa; lia).
        assert (1 <= 2 ^ n * 2 ^ prec) by nia.
        rewrite <- Z.mul_assoc. nia.
      * destruct (Zdigits2_bounds q ltac:(lia)) as [_ Hhi].
        pose proof (Zdigits2_pos q ltac:(lia)) as Hdpos.
        assert (Hle : 2 ^ Zdigits2 q <= 2 ^ (n + prec)).
        { apply pow2_le. unfold n, fexp. lia. }
        rewrite pow2_add in Hle by (unfold prec; lia).
        nia.
    + intros He.
      assert (Hnd : n = Zdigits2 q - prec) by (unfold n, fexp, emin, prec in *; lia).
      assert (Hqpos : 0 < q).
      { destruct (Z.eq_dec q 0) as [Hz|Hz]; [|lia].
        rewrite Hz in Hnd. cbn [Zdigits2] in Hnd. unfold prec in Hnd. lia. }
      destruct (Zdigits2_bounds q Hqpos) as [Hlo _].
      assert (Hp : 2 ^ n * 2 ^ (prec - 1) = 2 ^ (Zdigits2 q - 1)).
      { rewrite <- pow2_add by (unfold prec; lia). f_equal. lia. }
      nia.
  - cbn [SFdiv xorb].
    pose proof (div_core m1 e1 m2 e2) as Hcore. cbv zeta in Hcore.
    fold e' in Hcore. fold s in Hcore. fold a in Hcore. rewrite Hcore.
    apply round_aux_finish; try lia. reflexivity.
Qed.

(** *** The last steps of rounding *)

Lemma finish_zero sx e : emin <= e -> finish sx 0 e = S754_zero sx.
Proof.
  intros He. unfold finish, shr_fexp. rewrite fexp_spec. cbn [Zdigits2].
  destruct (fexp (0 + e) - e) eqn:E; try reflexivity.
  unfold fexp, emin, prec in *. lia.
Qed.

Lemma finish_pos sx p e :
  emin <= e -> Zpos p < 2 ^ prec ->
  finish sx (Zpos p) e
  = if e <=? emax - prec then S754_finite sx p e else S754_infinity sx.
Proof.
  intros He Hp. unfold finish, shr_fexp. rewrite fexp_spec.
  pose proof (Zdigits2_le (Zpos p) prec ltac:(lia) Hp) as Hd.
  destruct (fexp (Zdigits2 (Zpos p) + e) - e) eqn:E; try reflexivity.
  unfold fexp, emin, prec in *. lia.
Qed.

Lemma finish_carry sx e :
  emin <= e ->
  finish sx (2 ^ prec) e
  = if e + 1 <=? emax - prec
    then S754_finite sx (Z.to_pos (2 ^ (prec - 1))) (e + 1)
    else S754_infinity sx.
Proof.
  intros He. unfold finish, shr_fexp. rewrite fexp_spec.
  change (Zdigits2 (2 ^ prec)) with 54.
  replace (fexp (54 + e) - e) with 1 by (unfold fexp, emin, prec in *; lia).
  reflexivity.
Qed.

(** *** Rounding to nearest even is monotone *)

Lemma round_nearest_even_bounds q l :
  q <= round_nearest_even q l <= q + 1.
Proof.
  destruct l as [|[| |]]; cbn [round_nearest_even]; try lia.
  destruct (Z.even q); lia.
Qed.

Lemma round_truncate_mono a1 b1 a2 b2 :
  0 <= a1 -> 0 < b1 -> 0 <= a2 -> 0 < b2 ->
  a2 * b1 <= a1 * b2 ->
  round_nearest_even (a2 / b2) (locate (a2 mod b2) b2)
  <= round_nearest_even (a1 / b1) (locate (a1 mod b1) b1).
Proof.
  intros Ha1 Hb1 Ha2 Hb2 Hle.
  pose proof (Z.div_mod a1 b1 ltac:(lia)) as E1.
  pose proof (Z.mod_pos_bound a1 b1 Hb1) as R1.
  pose proof (Z.div_mod a2 b2 ltac:(lia)) as E2.
  pose proof (Z.mod_pos_bound a2 b2 Hb2) as R2.
  set (q1 := a1 / b1) in *. set (r1 := a1 mod b1) in *.
  set (q2 := a2 / b2) in *. set (r2 := a2 mod b2) in *.
  pose proof (round_nearest_even_bounds q1 (locate r1 b1)) as B1.
  pose proof (round_nearest_even_bounds q2 (locate r2 b2)) as B2.
  destruct (Z.lt_trichotomy q1 q2) as [Hlt|[Heq|Hgt]].
  - exfalso. assert (a1 * b2 < a2 * b1); [|lia].
    assert (a1 < b1 * q2) by nia.
    assert (b2 * q2 <= a2) by nia.
    assert (0 <= q2) by nia.
    nia.
  - rewrite <- Heq in *.
    assert (Hr : r2 * b1 <= r1 * b2) by nia.
    unfold locate at 1.
    destruct (Z.eqb_spec r2 0) as [Hz2|Hz2]; [cbn [round_nearest_even]; lia|].
    unfold locate.
    destruct (Z.eqb_spec r1 0) as [Hz1|Hz1]; [exfalso; nia|].
    destruct (Z.compare_spec (2 * r2) b2) as [C2|C2|C2];
      destruct (Z.compare_spec (2 * r1) b1) as [C1|C1|C1];
      cbn [round_nearest_even]; try destruct (Z.even q1); try lia; exfalso; nia.
  - lia.
Qed.

(** *** Order of the rounded results *)

Lemma finite_leb p2 e2 p1 e1 :
  e2 < e1 \/ (e2 = e1 /\ Zpos p2 <= Zpos p1) ->
  SFleb (S754_finite false p2 e2) (S754_finite false p1 e1) = true.
Proof.
  intros H. unfold SFleb, SFcompare.
  destruct (Z.compare_spec e2 e1) as [He|He|He]; try reflexivity; try lia.
  change (Pos.compare_cont Eq p2 p1) with (Pos.compare p2 p1).
  destruct (Pos.compare_spec p2 p1) as [Hp|Hp|Hp]; try reflexivity. lia.
Qed.

Lemma finish_le m1 e1 m2 e2 :
  rounded m1 e1 -> rounded m2 e2 ->
  e2 < e1 \/ (e2 = e1 /\ m2 <= m1) ->
  SFleb (finish false m2 e2) (finish false m1 e1) = true.
Proof.
  intros (Hm1 & He1 & Hn1) (Hm2 & He2 & Hn2) Hord.
  change (2 ^ prec) with 9007199254740992 in *.
  change (2 ^ (prec - 1)) with 4503599627370496 in *.
  assert (C1 : m1 = 0 \/ m1 = 9007199254740992 \/ 0 < m1 < 9007199254740992) by lia.
  assert (C2 : m2 = 0 \/ m2 = 9007199254740992 \/ 0 < m2 < 9007199254740992) by lia.
  assert (F0 : forall e, emin <= e -> finish false 0 e = S754_zero false)
    by (intros; apply finish_zero; assumption).
  assert (FC : forall e, emin <= e ->
             finish false 9007199254740992 e
             = if e + 1 <=? emax - prec
               then S754_finite false 4503599627370496 (e + 1)
               else S754_infinity false)
    by (intros; apply (finish_carry false); assumption).
  assert (FP : forall m e, emin <= e -> 0 < m < 9007199254740992 ->
             finish false m e
             = if e <=? emax - prec
               then S754_finite false (Z.to_pos m) e
               else S754_infinity false).
  { intros m e He Hm. destruct m as [|p|p]; try lia.
    apply finish_pos; [assumption|]. change (2 ^ prec) with 9007199254740992. lia. }
  destruct C2 as [->|[->|C2]]; [rewrite F0 by assumption
                               |rewrite FC by assumption
                               |rewrite (FP m2) by assumption];
  (destruct C1 as [->|[->|C1]]; [rewrite F0 by assumption
                                |rewrite FC by assumption
                                |rewrite (FP m1) by assumption]);
  repeat match goal with
         | |- context [?x <=? ?y] => destruct (Z.leb_spec x y)
         end;
  try reflexivity; try lia;
  try (apply finite_leb; rewrite ?Z2Pos.id by lia; lia).
Qed.

(** *** Valid floats and their order *)

Lemma bounded_range m e :
  bounded prec emax m e = true ->
  emin <= e /\ Zpos m < 2 ^ prec /\ (emin < e -> 2 ^ (prec - 1) <= Zpos m).
Proof.
  unfold bounded, canonical_mantissa. rewrite fexp_spec.
  intros H. apply andb_prop in H. destruct H as [H _].
  apply Z.eqb_eq in H.
  destruct (digits2_bounds m) as [Hlo Hhi].
  assert (Hd : Zpos (digits2_pos m) <= prec) by (unfold fexp, emin, prec in *; lia).
  split; [unfold fexp, emin, prec in *; lia|]. split.
  - pose proof (pow2_le (Zpos (digits2_pos m)) prec ltac:(lia)). lia.
  - intros He.
    assert (Hd' : Zpos (digits2_pos m) = prec) by (unfold fexp, emin, prec in *; lia).
    rewrite Hd' in Hlo. exact Hlo.
Qed.

Lemma ltb_finite m1 e1 m2 e2 :
  SFltb (S754_finite false m1 e1) (S754_finite false m2 e2) = true ->
  e1 < e2 \/ (e1 = e2 /\ Zpos m1 < Zpos m2).
Proof.
  unfold SFltb, SFcompare.
  destruct (Z.compare_spec e1 e2) as [He|He|He]; try discriminate; [|lia].
  change (Pos.compare_cont Eq m1 m2) with (Pos.compare m1 m2).
  destruct (Pos.compare_spec m1 m2); try discriminate. lia.
Qed.

(** On valid floats the order of [<] is the order of the values. *)
Lemma ltb_value m1 e1 m2 e2 :
  bounded prec emax m1 e1 = true -> bounded prec emax m2 e2 = true ->
  SFltb (S754_finite false m1 e1) (S754_finite false m2 e2) = true ->
  e1 <= e2 /\ Zpos m1 < Zpos m2 * 2 ^ (e2 - e1).
Proof.
  intros B1 B2 H. apply bounded_range in B1, B2. apply ltb_finite in H.
  destruct B1 as (He1 & Hm1 & _). destruct B2 as (He2 & _ & Hn2).
  change (2 ^ prec) with 9007199254740992 in *.
  change (2 ^ (prec - 1)) with 4503599627370496 in *.
  destruct H as [H|[-> H]].
  - split; [lia|]. specialize (Hn2 ltac:(lia)).
    assert (2 ^ 1 <= 2 ^ (e2 - e1)) by (apply pow2_le; lia).
    change (2 ^ 1) with 2 in *. nia.
  - split; [lia|]. rewrite Z.sub_diag. change (2 ^ 0) with 1. lia.
Qed.

Lemma in_format_rounded a b e :
  0 < a -> 0 < b -> in_format a b e ->
  rounded (round_nearest_even (a / b) (locate (a mod b) b)) e.
Proof.
  intros Ha Hb (He & Hhi & Hlo).
  pose proof (round_nearest_even_bounds (a / b) (locate (a mod b) b)) as Hr.
  pose proof (pow2_pos prec ltac:(unfold prec; lia)) as Hp.
  assert (H0 : 0 <= a / b) by (apply Z.div_pos; lia).
  assert (H1 : a / b < 2 ^ prec) by (apply Z.div_lt_upper_bound; lia).
  split; [lia|]. split; [assumption|].
  intros Hn. specialize (Hlo Hn).
  assert (2 ^ (prec - 1) <= a / b) by (apply Z.div_le_lower_bound; lia).
  lia.
Qed.

(** *** Division by a larger value never gives a larger result *)

Lemma div_antitone mc ec ma ea mb eb :
  bounded prec emax ma ea = true -> bounded prec emax mb eb = true ->
  SFltb (S754_finite false ma ea) (S754_finite false mb eb) = true ->
  SFleb (SFdiv prec emax (S754_finite false mc ec) (S754_finite false mb eb))
        (SFdiv prec emax (S754_finite false mc ec) (S754_finite false ma ea)) = true.
Proof.
  intros Ba Bb Hlt.
  destruct (ltb_value _ _ _ _ Ba Bb Hlt) as [Hd Hv].
  destruct (div_rounds mc ec ma ea)
    as (a1 & b1 & E1 & Ha1 & Hb1 & (s1 & n1 & Hs1 & Hn1 & -> & -> & Hx1) & F1 & ->).
  destruct (div_rounds mc ec mb eb)
    as (a2 & b2 & E2 & Ha2 & Hb2 & (s2 & n2 & Hs2 & Hn2 & -> & -> & Hx2) & F2 & ->).
  apply finish_le; try (apply in_format_rounded; assumption).
  pose proof (pow2_pos s1 Hs1) as PS1. pose proof (pow2_pos n1 Hn1) as PN1.
  pose proof (pow2_pos s2 Hs2) as PS2. pose proof (pow2_pos n2 Hn2) as PN2.
  pose proof (pow2_pos (eb - ea) ltac:(lia)) as PD.
  destruct F1 as (He1 & Hhi1 & _). destruct F2 as (_ & _ & Hlo2).
  change (2 ^ prec) with (2 * 2 ^ (prec - 1)) in Hhi1.
  pose proof (pow2_pos (prec - 1) ltac:(unfold prec; lia)) as PP.
  set (D := 2 ^ (eb - ea)) in *.
  set (S1 := 2 ^ s1) in *. set (N1 := 2 ^ n1) in *.
  set (S2 := 2 ^ s2) in *. set (N2 := 2 ^ n2) in *.
  set (P := 2 ^ (prec - 1)) in *.
  destruct (Z.lt_trichotomy E2 E1) as [Hlt12|[Heq|Hgt]].
  - left. assumption.
  - right. split; [assumption|].
    apply round_truncate_mono; try lia.
    assert (Hpow : S1 * N2 = S2 * N1 * D).
    { unfold S1, N2, S2, N1, D. rewrite <- !pow2_add by lia. f_equal. lia. }
    assert (Hk : 0 < S2 * N1) by nia.
    replace (Z.pos mc * S1 * (Z.pos mb * N2))
      with (Z.pos mc * (Z.pos mb * D) * (S2 * N1))
      by (transitivity (Z.pos mc * Z.pos mb * (S1 * N2)); [rewrite Hpow|]; ring).
    replace (Z.pos mc * S2 * (Z.pos ma * N1))
      with (Z.pos mc * Z.pos ma * (S2 * N1)) by ring.
    apply Z.mul_le_mono_nonneg_r; [lia|].
    apply Z.mul_le_mono_nonneg_l; lia.
  - exfalso. specialize (Hlo2 ltac:(lia)).
    set (J := 2 ^ (E2 - E1)).
    assert (HJ : 2 <= J).
    { change 2 with (2 ^ 1) at 1. apply pow2_le. lia. }
    assert (Hpow : S1 * N2 = S2 * N1 * D * J).
    { unfold S1, N2, S2, N1, D, J. rewrite <- !pow2_add by lia. f_equal. lia. }
    set (K := S2 * N1) in *.
    assert (Hk : 0 < K) by (unfold K; nia).
    (* [mb * N2 * P <= mc * S2] and [mc * S1 < ma * N1 * 2 * P] *)
    assert (T1 : Z.pos mb * N2 * P * S1 <= Z.pos mc * S2 * S1)
      by (apply Z.mul_le_mono_nonneg_r; lia).
    assert (T2 : Z.pos mc * S1 * S2 < Z.pos ma * N1 * (2 * P) * S2)
      by (apply Z.mul_lt_mono_pos_r; lia).
    assert (T3 : Z.pos mb * P * (K * D * J) < Z.pos ma * (2 * P) * K).
    { rewrite <- Hpow. unfold K. 
      replace (Z.pos mb * P * (S1 * N2)) with (Z.pos mb * N2 * P * S1) by ring.
      replace (Z.pos ma * (2 * P) * (S2 * N1)) with (Z.pos ma * N1 * (2 * P) * S2) by ring.
      lia. }
    assert (T4 : Z.pos mb * D * J < 2 * Z.pos ma).
    { apply (Z.mul_lt_mono_pos_r (P * K)); [nia|].
      replace (Z.pos mb * D * J * (P * K)) with (Z.pos mb * P * (K * D * J)) by ring.
      replace (2 * Z.pos ma * (P * K)) with (Z.pos ma * (2 * P) * K) by ring.
      exact T3. }
    assert (T5 : Z.pos mb * D * 2 <= Z.pos mb * D * J)
      by (apply Z.mul_le_mono_nonneg_l; nia).
    lia.
Qed.

(** *** A finite number divided by itself is one *)

Lemma div_self s m e :
  SFdiv prec emax (S754_finite s m e) (S754_finite s m e)
  = S754_finite false 4503599627370496 (-52).
Proof.
  cbn [SFdiv]. rewrite xorb_nilpotent.
  pose proof (div_core m e m e) as H. cbv zeta in H.
  assert (He : div_exponent m e m e = -53).
  { unfold div_exponent.
    replace (Z.pos (digits2_pos m) + e - (Z.pos (digits2_pos m) + e)) with 0 by lia.
    rewrite Z.sub_diag. reflexivity. }
  rewrite He in H.
  replace (e - e - -53) with 53 in H by lia.
  rewrite Z.mul_comm, Z.div_mul, Z.mod_mul in H by lia.
  rewrite H. reflexivity.
Qed.

(* ================================================================== *)
(** ** The monad and the Python primitives *)
(* ================================================================== *)

Lemma bind_ok {A B} (c : M A) (k : A -> M B) w w' a :
  c w = (w', Ok a) -> bind c k w = k a w'.
Proof. intros H. unfold bind. rewrite H. reflexivity. Qed.

Lemma bind_raise {A B} (c : M A) (k : A -> M B) w w' e :
  c w = (w', Raise e) -> bind c k w = (w', Raise e).
Proof. intros H. unfold bind. rewrite H. reflexivity. Qed.

(** [y == 0] holds of the two zeros and of nothing else. *)
Lemma eqb_zero_true y : eqb y zero = true <-> exists s, y = S754_zero s.
Proof.
  split.
  - destruct y as [s|s| |s m e]; try (now exists s);
      cbv [eqb SFeqb SFcompare zero]; try discriminate;
      destruct s; discriminate.
  - intros [s ->]. reflexivity.
Qed.

Lemma positive_real_nonzero x : positive_real x = true -> eqb x zero = false.
Proof. destruct x as [s|s| |[|] m e]; try discriminate; reflexivity. Qed.

Lemma truediv_nonzero x y w :
  eqb y zero = false -> truediv x y w = (w, Ok (div x y)).
Proof. intros H. unfold truediv. rewrite H. reflexivity. Qed.

Lemma truediv_zero x y w :
  eqb y zero = true -> truediv x y w = (w, Raise ZeroDivisionError).
Proof. intros H. unfold truediv. rewrite H. reflexivity. Qed.

(** The comprehension over divisors without a zero is a [map]. *)
Lemma comprehension_truediv_ok b l w :
  Forall (fun t => eqb t zero = false) l ->
  comprehension (truediv b) l w = (w, Ok (map (div b) l)).
Proof.
  induction 1 as [|t l Ht _ IH]; [reflexivity|].
  cbn [comprehension map].
  rewrite (bind_ok _ _ _ _ _ (truediv_nonzero b t w Ht)).
  rewrite (bind_ok _ _ _ _ _ IH). reflexivity.
Qed.

(** It stops at the first zero divisor, the world untouched. *)
Lemma comprehension_truediv_zero b l w :
  Exists (fun t => eqb t zero = true) l ->
  comprehension (truediv b) l w = (w, Raise ZeroDivisionError).
Proof.
  induction l as [|t l IH]; intros H; [inversion H|].
  cbn [comprehension].
  destruct (eqb t zero) eqn:Ht.
  - apply bind_raise, truediv_zero, Ht.
  - rewrite (bind_ok _ _ _ _ _ (truediv_nonzero b t w Ht)).
    apply bind_raise, IH.
    inversion H; subst; [congruence|assumption].
Qed.

(** Whatever the divisors, the comprehension leaves the world alone and
    its outcome does not depend on the world. *)
Lemma comprehension_truediv_pure b l :
  exists r, forall w, comprehension (truediv b) l w = (w, r).
Proof.
  induction l as [|t l [r IH]].
  - exists (Ok []). reflexivity.
  - destruct (eqb t zero) eqn:Ht.
    + exists (Raise ZeroDivisionError). intros w. cbn [comprehension].
      apply bind_raise, truediv_zero, Ht.
    + destruct r as [ys|e].
      * exists (Ok (div b t :: ys)). intros w. cbn [comprehension].
        rewrite (bind_ok _ _ _ _ _ (truediv_nonzero b t w Ht)).
        rewrite (bind_ok _ _ _ _ _ (IH w)). reflexivity.
      * exists (Raise e). intros w. cbn [comprehension].
        rewrite (bind_ok _ _ _ _ _ (truediv_nonzero b t w Ht)).
        apply bind_raise, IH.
Qed.

Lemma comprehension_truediv_length b l w w' ys :
  comprehension (truediv b) l w = (w', Ok ys) -> length ys = length l.
Proof.
  revert w w' ys. induction l as [|t l IH]; intros w w' ys.
  - cbn. intros [= _ <-]. reflexivity.
  - cbn [comprehension]. unfold bind at 1.
    destruct (truediv b t w) as [w1 [y|e]]; [|discriminate].
    unfold bind at 1.
    destruct (comprehension (truediv b) l w1) as [w2 [zs|e]] eqn:E; [|discriminate].
    intros [= _ <-]. cbn. f_equal. eapply IH, E.
Qed.

(** ** Lines 7 and 8 *)

Lemma speedups_nil w : speedups [] w = (w, Raise IndexError).
Proof. reflexivity. Qed.

Lemma speedups_ok b l w :
  Forall (fun t => eqb t zero = false) (b :: l) ->
  speedups (b :: l) w = (w, Ok (map (div b) (b :: l))).
Proof.
  intros H. unfold speedups. cbn [getitem nth_error].
  rewrite (bind_ok _ _ w w b eq_refl).
  apply comprehension_truediv_ok, H.
Qed.

Lemma speedups_zero l w :
  Exists (fun t => eqb t zero = true) l ->
  speedups l w = (w, Raise ZeroDivisionError).
Proof.
  intros H. destruct l as [|b l]; [inversion H|].
  unfold speedups. cbn [getitem nth_error].
  rewrite (bind_ok _ _ w w b eq_refl).
  apply comprehension_truediv_zero, H.
Qed.

Lemma speedups_pure l : exists r, forall w, speedups l w = (w, r).
Proof.
  destruct l as [|b l].
  - exists (Raise IndexError). reflexivity.
  - destruct (comprehension_truediv_pure b (b :: l)) as [r Hr].
    exists r. intros w. unfold speedups. cbn [getitem nth_error].
    rewrite (bind_ok _ _ w w b eq_refl). apply Hr.
Qed.

Lemma speedups_length l w w' ys :
  speedups l w = (w', Ok ys) -> length ys = length l.
Proof.
  destruct l as [|b l]; [discriminate|].
  unfold speedups. cbn [getitem nth_error].
  rewrite (bind_ok _ _ w w b eq_refl).
  apply comprehension_truediv_length.
Qed.

Lemma Forall_elapsed (P : float -> Prop) ms :
  Forall (fun m => P (elapsed_seconds m)) ms ->
  Forall P (map elapsed_seconds ms).
Proof. induction 1; cbn; constructor; assumption. Qed.

Lemma Exists_elapsed (P : float -> Prop) ms :
  Exists (fun m => P (elapsed_seconds m)) ms ->
  Exists P (map elapsed_seconds ms).
Proof. induction 1; cbn; [left|right]; assumption. Qed.

Lemma all_positive_no_zero ms : all_positive ms -> no_zero ms.
Proof.
  unfold all_positive, no_zero. intros H.
  eapply Forall_impl; [|exact H]. intros m. apply positive_real_nonzero.
Qed.

(** ** Lists *)

Lemma zip_map {A B C} (f : A -> B) (g : A -> C) (l : list A) :
  zip (map f l) (map g l) = map (fun x => (f x, g x)) l.
Proof. unfold zip. induction l; cbn; congruence. Qed.

Lemma map_snd_zip {A B} (l : list A) (l' : list B) :
  length l = length l' -> map snd (zip l l') = l'.
Proof.
  unfold zip. revert l'. induction l as [|x l IH]; intros [|y l']; cbn;
    try discriminate; try reflexivity.
  intros [= H]. f_equal. apply IH, H.
Qed.

Lemma last_some_app {A} (f : call -> option A) (c c' : list call) :
  last_some f (c ++ c')
  = match last_some f c' with
    | Some a => Some a
    | None => last_some f c
    end.
Proof.
  induction c as [|x c IH]; cbn.
  - destruct (last_some f c'); reflexivity.
  - rewrite IH. destruct (last_some f c'); reflexivity.
Qed.

(** ** Datasets *)

Lemma no_zero_or_has_zero ms : no_zero ms \/ has_zero ms.
Proof.
  unfold no_zero, has_zero. induction ms as [|m ms [IH|IH]].
  - left. constructor.
  - destruct (eqb (elapsed_seconds m) zero) eqn:E.
    + right. left. exact E.
    + left. constructor; assumption.
  - right. right. exact IH.
Qed.

Lemma no_zero_times ms :
  no_zero ms -> Forall (fun t => eqb t zero = false) (map elapsed_seconds ms).
Proof. apply (Forall_elapsed (fun t => eqb t zero = false)). Qed.

Lemma has_zero_times ms :
  has_zero ms -> Exists (fun t => eqb t zero = true) (map elapsed_seconds ms).
Proof. apply (Exists_elapsed (fun t => eqb t zero = true)). Qed.

(** [compute_speedups] on a dataset without a zero. *)
Lemma compute_speedups_ok m0 rest w :
  no_zero (m0 :: rest) ->
  compute_speedups (m0 :: rest) w
  = (w, Ok (map (fun m => (workers m,
                           div (elapsed_seconds m0) (elapsed_seconds m)))
              (m0 :: rest))).
Proof.
  intros H. unfold compute_speedups.
  pose proof (speedups_ok (elapsed_seconds m0) (map elapsed_seconds rest) w
                (no_zero_times _ H)) as Hs.
  change (elapsed_seconds m0 :: map elapsed_seconds rest)
    with (map elapsed_seconds (m0 :: rest)) in Hs.
  rewrite (bind_ok _ _ _ _ _ Hs). unfold ret.
  rewrite map_map, zip_map. reflexivity.
Qed.

(** [compute_speedups] never touches the world, and its outcome is the
    same in every world. *)
Lemma compute_speedups_same_everywhere ms :
  exists r, forall w, compute_speedups ms w = (w, r).
Proof.
  destruct (speedups_pure (map elapsed_seconds ms)) as [[s|e] Hr].
  - exists (Ok (zip (map workers ms) s)). intros w. unfold compute_speedups.
    rewrite (bind_ok _ _ _ _ _ (Hr w)). reflexivity.
  - exists (Raise e). intros w. unfold compute_speedups.
    apply bind_raise, Hr.
Qed.

(** ** The plotting library *)

Lemma record_run c w :
  plt.record c w = (with_chart w (chart w ++ [c]), Ok tt).
Proof. reflexivity. Qed.

(** A call on data the library takes as it is gets recorded. *)
Lemma call_with_safe lib c w :
  safe_call c = true ->
  plt.call_with lib c w = (with_chart w (chart w ++ [c]), Ok tt).
Proof.
  intros H. unfold plt.call_with, blocked. rewrite H. reflexivity.
Qed.

(** Any call is recorded or raises an error of the library, the world
    untouched. *)
Lemma call_with_cases lib c w :
  plt.call_with lib c w = (with_chart w (chart w ++ [c]), Ok tt)
  \/ exists e, plt.call_with lib c w = (w, Raise (exn_of e)).
Proof.
  unfold plt.call_with. destruct (blocked lib (chart w) c) as [e|].
  - right. exists e. reflexivity.
  - left. reflexivity.
Qed.

(** [plot] on data the library takes as it is. *)
Lemma plot_run lib xs ys style w :
  length xs = length ys ->
  safe_call (Plot xs ys style) = true ->
  plt.plot lib xs ys style w = (with_chart w (chart w ++ [Plot xs ys style]), Ok tt).
Proof.
  intros Hlen H. unfold plt.plot, blocked. rewrite H, Hlen, Nat.eqb_refl.
  reflexivity.
Qed.

Lemma plot_mismatch lib xs ys style w :
  length xs <> length ys ->
  safe_call (Plot xs ys style) = true ->
  plt.plot lib xs ys style w = (w, Raise ValueError).
Proof.
  intros Hlen H. unfold plt.plot, blocked. rewrite H.
  apply Nat.eqb_neq in Hlen. rewrite Hlen. reflexivity.
Qed.

(** [plot] on columns of the same length is recorded or raises an error
    of the library, the world untouched. *)
Lemma plot_cases lib xs ys style w :
  length xs = length ys ->
  plt.plot lib xs ys style w = (with_chart w (chart w ++ [Plot xs ys style]), Ok tt)
  \/ exists e, plt.plot lib xs ys style w = (w, Raise (exn_of e)).
Proof.
  intros Hlen. unfold plt.plot.
  destruct (blocked lib (chart w) (Plot xs ys style)) as [e|].
  - right. exists e. reflexivity.
  - left. rewrite Hlen, Nat.eqb_refl. reflexivity.
Qed.

Lemma safe_ints l :
  Forall (fun n => exact_int n = true) l -> forallb safe_num (ints l) = true.
Proof.
  induction 1 as [|n l Hn _ IH]; [reflexivity|].
  cbn. rewrite Hn. exact IH.
Qed.

Lemma safe_floats l : forallb safe_num (floats l) = true.
Proof. induction l; [reflexivity|assumption]. Qed.

Lemma exact_zip (ths : list Z) (sp : list float) :
  Forall (fun n => exact_int n = true) ths ->
  Forall (fun p => exact_int (fst p) = true) (zip ths sp).
Proof.
  unfold zip. intros H. revert sp.
  induction H as [|n l Hn _ IH]; intros [|y sp]; cbn; constructor; auto.
Qed.

Lemma exact_workers_threads ms :
  exact_workers ms -> Forall (fun n => exact_int n = true) (map workers ms).
Proof. induction 1; cbn; constructor; assumption. Qed.

(** ** Lines 10 to 41 *)

(** The annotation loop on exact worker counts adds one [Annotate] per
    pair, in order. *)
Lemma annotate_loop_run lib (l : list (Z * float)) w :
  Forall (fun p => exact_int (fst p) = true) l ->
  for_each l (fun '(x, y) =>
      plt.annotate lib (format_2f y ++ "x")%string (PyInt x, PyFloat y)
        "offset points" (0, 10) "center" 10 "bold") w
  = (with_chart w
       (chart w ++ map (fun '(x, y) =>
            Annotate (format_2f y ++ "x")%string (PyInt x, PyFloat y)
              "offset points" (0, 10) "center" 10 "bold") l), Ok tt).
Proof.
  intros H. revert w. induction H as [|[x y] l Hx _ IH]; intros w.
  - cbn. unfold ret, with_chart. rewrite app_nil_r. destruct w; reflexivity.
  - cbn [for_each map]. unfold bind at 1, plt.annotate at 1.
    rewrite call_with_safe by (cbn in *; rewrite Hx; reflexivity).
    rewrite IH. unfold with_chart; cbn.
    rewrite <- app_assoc. reflexivity.
Qed.

(** On any worker counts the loop either adds all its annotations or
    stops at an error of the library, some of them added. *)
Lemma annotate_loop_cases lib (l : list (Z * float)) w :
  for_each l (fun '(x, y) =>
      plt.annotate lib (format_2f y ++ "x")%string (PyInt x, PyFloat y)
        "offset points" (0, 10) "center" 10 "bold") w
  = (with_chart w
       (chart w ++ map (fun '(x, y) =>
            Annotate (format_2f y ++ "x")%string (PyInt x, PyFloat y)
              "offset points" (0, 10) "center" 10 "bold") l), Ok tt)
  \/ exists p e,
       for_each l (fun '(x, y) =>
           plt.annotate lib (format_2f y ++ "x")%string (PyInt x, PyFloat y)
             "offset points" (0, 10) "center" 10 "bold") w
       = (with_chart w (chart w ++ p), Raise (exn_of e)).
Proof.
  revert w. induction l as [|[x y] l IH]; intros w.
  - left. cbn. unfold ret, with_chart. rewrite app_nil_r. destruct w; reflexivity.
  - cbn [for_each map]. unfold plt.annotate at 1 3.
    destruct (call_with_cases lib
                (Annotate (format_2f y ++ "x")%string (PyInt x, PyFloat y)
                   "offset points" (0, 10) "center" 10 "bold") w) as [H|[e H]].
    + rewrite !(bind_ok _ _ _ _ _ H).
      destruct (IH (with_chart w (chart w ++
                  [Annotate (format_2f y ++ "x")%string (PyInt x, PyFloat y)
                     "offset points" (0, 10) "center" 10 "bold"])))
        as [H'|(p & e & H')]; rewrite H'.
      * left. unfold with_chart; cbn. rewrite <- app_assoc. reflexivity.
      * right. eexists _, e. unfold with_chart; cbn. rewrite <- app_assoc.
        reflexivity.
    + right. exists [], e. rewrite (bind_raise _ _ _ _ _ H).
      unfold with_chart. rewrite app_nil_r. destruct w; reflexivity.
Qed.

Lemma safe_render_calls ths sp :
  Forall (fun n => exact_int n = true) ths ->
  safe_chart (render_calls ths sp) = true.
Proof.
  intros H. unfold safe_chart, render_calls. rewrite !forallb_app.
  cbn [forallb safe_call]. rewrite (safe_ints ths H), (safe_floats sp).
  cbn [andb]. rewrite andb_true_r.
  pose proof (exact_zip ths sp H) as Hz.
  induction Hz as [|[x y] l Hx _ IH]; [reflexivity|].
  cbn in *. rewrite Hx. exact IH.
Qed.

(** [render] on exact worker counts: every call is recorded, and the
    file system decides. *)
Lemma render_run lib writable threads sp w :
  length threads = length sp ->
  Forall (fun n => exact_int n = true) threads ->
  safe_chart (chart w) = true ->
  render lib writable threads sp w =
    if writable output_filename
    then (rendered w (render_calls threads sp), Ok tt)
    else (with_chart w (chart w ++ render_calls threads sp), Raise OSError).
Proof.
  intros Hlen Hex Hw.
  pose proof (safe_ints threads Hex) as Hi.
  pose proof (safe_render_calls threads sp Hex) as Hc.
  assert (E : length (ints threads) = length (floats sp)).
  { unfold ints, floats. rewrite !length_map. exact Hlen. }
  unfold render.
  unfold bind at 1, plt.figure. rewrite record_run.
  unfold bind at 1.
  rewrite plot_run by (try reflexivity; cbn; rewrite Hi; reflexivity).
  unfold bind at 1.
  rewrite plot_run by (try exact E; cbn; rewrite Hi, safe_floats; reflexivity).
  unfold bind at 1. rewrite annotate_loop_run by (apply exact_zip, Hex).
  unfold bind at 1, plt.title. rewrite record_run.
  unfold bind at 1, plt.xlabel. rewrite record_run.
  unfold bind at 1, plt.ylabel. rewrite record_run.
  unfold bind at 1, plt.xticks. rewrite call_with_safe by (cbn; exact Hi).
  unfold bind at 1, plt.grid. rewrite record_run.
  unfold bind at 1, plt.legend. rewrite record_run.
  unfold bind, plt.savefig, print, undrawable, with_chart, rendered.
  cbn [chart files stdout].
  repeat rewrite <- app_assoc. cbn [app].
  change (Figure (10, 6) :: _) with (render_calls threads sp).
  unfold safe_chart in *. rewrite forallb_app, Hw, Hc. cbn [andb].
  destruct (writable output_filename); reflexivity.
Qed.

(** The steps of [render] on any worker counts. *)
Lemma step_record c (k : unit -> M unit) w (P : world * result unit -> Prop) :
  P (k tt (with_chart w (chart w ++ [c]))) ->
  P (bind (plt.record c) k w).
Proof. intros H. unfold bind. rewrite record_run. exact H. Qed.

Lemma step_call lib c (k : unit -> M unit) w (P : world * result unit -> Prop) :
  (forall e, P (w, Raise (exn_of e))) ->
  P (k tt (with_chart w (chart w ++ [c]))) ->
  P (bind (plt.call_with lib c) k w).
Proof.
  intros Hf Hk. destruct (call_with_cases lib c w) as [H|[e H]].
  - rewrite (bind_ok _ _ _ _ _ H). exact Hk.
  - rewrite (bind_raise _ _ _ _ _ H). apply Hf.
Qed.

Lemma step_plot lib xs ys style (k : unit -> M unit) w
    (P : world * result unit -> Prop) :
  length xs = length ys ->
  (forall e, P (w, Raise (exn_of e))) ->
  P (k tt (with_chart w (chart w ++ [Plot xs ys style]))) ->
  P (bind (plt.plot lib xs ys style) k w).
Proof.
  intros Hlen Hf Hk. destruct (plot_cases lib xs ys style w Hlen) as [H|[e H]].
  - rewrite (bind_ok _ _ _ _ _ H). exact Hk.
  - rewrite (bind_raise _ _ _ _ _ H). apply Hf.
Qed.

Lemma step_loop lib (l : list (Z * float)) (k : unit -> M unit) w
    (P : world * result unit -> Prop) :
  (forall p e, P (with_chart w (chart w ++ p), Raise (exn_of e))) ->
  P (k tt (with_chart w
       (chart w ++ map (fun '(x, y) =>
            Annotate (format_2f y ++ "x")%string (PyInt x, PyFloat y)
              "offset points" (0, 10) "center" 10 "bold") l))) ->
  P (bind (for_each l (fun '(x, y) =>
        plt.annotate lib (format_2f y ++ "x")%string (PyInt x, PyFloat y)
          "offset points" (0, 10) "center" 10 "bold")) k w).
Proof.
  intros Hf Hk. destruct (annotate_loop_cases lib l w) as [H|(p & e & H)].
  - rewrite (bind_ok _ _ _ _ _ H). exact Hk.
  - rewrite (bind_raise _ _ _ _ _ H). apply Hf.
Qed.

Lemma library_error_by_rendering e : raised_by_rendering (exn_of e).
Proof. right. exists e. reflexivity. Qed.

(** How [render] can end, whatever the worker counts and the library:
    with everything drawn, saved and confirmed; or with an error of the
    library or of the file system, the figure created and no more than a
    part of the chart drawn. *)
Lemma render_elim lib writable threads sp w (P : world * result unit -> Prop) :
  length threads = length sp ->
  (forall p e, raised_by_rendering e ->
     P (with_chart w (chart w ++ Figure (10, 6) :: p), Raise e)) ->
  (writable output_filename = true ->
     P (rendered w (render_calls threads sp), Ok tt)) ->
  P (render lib writable threads sp w).
Proof.
  intros Hlen Hf Hok.
  pose proof Hf as Hf'.
  assert (E : length (ints threads) = length (floats sp)).
  { unfold ints, floats. rewrite !length_map. exact Hlen. }
  unfold render, plt.figure, plt.title, plt.xlabel, plt.ylabel, plt.xticks,
    plt.grid, plt.legend.
  apply step_record. cbv beta.
  apply step_plot;
    [reflexivity|intros e; apply (Hf' []), library_error_by_rendering|].
  cbv beta.
  apply step_plot; [exact E| |].
  { intros e. unfold with_chart; cbn [chart files stdout].
    repeat rewrite <- app_assoc. cbn [app].
    apply (Hf' _ _ (library_error_by_rendering e)). }
  cbv beta.
  apply step_loop.
  { intros p e. unfold with_chart; cbn [chart files stdout].
    repeat rewrite <- app_assoc. cbn [app].
    apply (Hf' _ _ (library_error_by_rendering e)). }
  cbv beta.
  do 3 (apply step_record; cbv beta).
  apply step_call.
  { intros e. unfold with_chart; cbn [chart files stdout].
    repeat rewrite <- app_assoc. cbn [app].
    apply (Hf' _ _ (library_error_by_rendering e)). }
  cbv beta.
  do 2 (apply step_record; cbv beta).
  unfold bind, plt.savefig, print, with_chart. cbn [chart files stdout].
  repeat rewrite <- app_assoc. cbn [app].
  match goal with
  | |- context [undrawable lib ?c] => destruct (undrawable lib c) as [e|]
  end.
  { apply (Hf' _ _ (library_error_by_rendering e)). }
  destruct (writable output_filename) eqn:W.
  - apply (Hok eq_refl).
  - apply (Hf' _ OSError). left. reflexivity.
Qed.

(** The script on a dataset: the ways it can end. *)
Lemma script_nil lib writable ths w :
  script lib writable ths [] w = (w, Raise IndexError).
Proof. reflexivity. Qed.

Lemma script_zero lib writable ths ts w :
  Exists (fun t => eqb t zero = true) ts ->
  script lib writable ths ts w = (w, Raise ZeroDivisionError).
Proof.
  intros H. unfold script. apply bind_raise, speedups_zero, H.
Qed.

Lemma script_ok lib writable ths b ts w :
  Forall (fun t => eqb t zero = false) (b :: ts) ->
  length ths = length (b :: ts) ->
  Forall (fun n => exact_int n = true) ths ->
  safe_chart (chart w) = true ->
  script lib writable ths (b :: ts) w =
    if writable output_filename
    then (rendered w (render_calls ths (map (div b) (b :: ts))), Ok tt)
    else (with_chart w (chart w ++ render_calls ths (map (div b) (b :: ts))),
          Raise OSError).
Proof.
  intros H Hlen Hex Hw. unfold script.
  rewrite (bind_ok _ _ _ _ _ (speedups_ok b ts w H)).
  apply render_run; try assumption. rewrite length_map. exact Hlen.
Qed.

Lemma script_elim lib writable ths b ts w (P : world * result unit -> Prop) :
  Forall (fun t => eqb t zero = false) (b :: ts) ->
  length ths = length (b :: ts) ->
  (forall p e, raised_by_rendering e ->
     P (with_chart w (chart w ++ Figure (10, 6) :: p), Raise e)) ->
  (writable output_filename = true ->
     P (rendered w (render_calls ths (map (div b) (b :: ts))), Ok tt)) ->
  P (script lib writable ths (b :: ts) w).
Proof.
  intros H Hlen Hf Hok. unfold script.
  rewrite (bind_ok _ _ _ _ _ (speedups_ok b ts w H)).
  apply render_elim; try assumption. rewrite length_map. exact Hlen.
Qed.

(** The run of the script on a dataset without a zero and with exact
    worker counts. *)
Lemma run_ok lib writable m0 rest :
  no_zero (m0 :: rest) ->
  exact_workers (m0 :: rest) ->
  let c := render_calls (map workers (m0 :: rest))
             (map (div (elapsed_seconds m0)) (map elapsed_seconds (m0 :: rest))) in
  run lib writable (m0 :: rest)
  = if writable output_filename
    then (rendered initial_world c, Ok tt)
    else (with_chart initial_world c, Raise OSError).
Proof.
  intros H Hex c. unfold run.
  change (map elapsed_seconds (m0 :: rest))
    with (elapsed_seconds m0 :: map elapsed_seconds rest).
  rewrite script_ok.
  - reflexivity.
  - apply (no_zero_times (m0 :: rest)), H.
  - cbn. rewrite !length_map. reflexivity.
  - apply exact_workers_threads, Hex.
  - reflexivity.
Qed.

Lemma run_chart lib writable m0 rest :
  no_zero (m0 :: rest) ->
  exact_workers (m0 :: rest) ->
  chart (fst (run lib writable (m0 :: rest)))
  = render_calls (map workers (m0 :: rest))
      (map (div (elapsed_seconds m0)) (map elapsed_seconds (m0 :: rest))).
Proof.
  intros H Hex. rewrite (run_ok lib writable m0 rest H Hex).
  destruct (writable output_filename); reflexivity.
Qed.

(** How the run on a dataset without a zero can end, whatever the worker
    counts and the library. *)
Lemma run_elim lib writable m0 rest (P : world * result unit -> Prop) :
  no_zero (m0 :: rest) ->
  (forall p e, raised_by_rendering e ->
     P ({| chart := Figure (10, 6) :: p; files := []; stdout := [] |}, Raise e)) ->
  (writable output_filename = true ->
     P (rendered initial_world
          (render_calls (map workers (m0 :: rest))
             (map (div (elapsed_seconds m0)) (map elapsed_seconds (m0 :: rest)))),
        Ok tt)) ->
  P (run lib writable (m0 :: rest)).
Proof.
  intros H Hf Hok. unfold run.
  change (map elapsed_seconds (m0 :: rest))
    with (elapsed_seconds m0 :: map elapsed_seconds rest).
  apply script_elim.
  - apply (no_zero_times (m0 :: rest)), H.
  - cbn. rewrite !length_map. reflexivity.
  - intros p e He. apply (Hf p e He).
  - exact Hok.
Qed.

(** A run that returns normally was on a non-empty dataset without a
    zero, the path could be written, and the whole chart was drawn. *)
Lemma run_success lib writable ms w :
  run lib writable ms = (w, Ok tt) ->
  exists m0 rest,
    ms = m0 :: rest /\ no_zero ms /\ writable output_filename = true
    /\ w = rendered initial_world
             (render_calls (map workers ms)
                (map (div (elapsed_seconds m0)) (map elapsed_seconds ms))).
Proof.
  intros Hrun. destruct ms as [|m0 rest]; [discriminate|].
  destruct (no_zero_or_has_zero (m0 :: rest)) as [Hnz|Hz].
  - exists m0, rest. revert Hrun.
    apply (run_elim lib writable m0 rest); [exact Hnz| |].
    + intros p e _ Habs. discriminate.
    + intros W [= <-]. auto.
  - unfold run in Hrun.
    rewrite (script_zero lib writable _ _ _ (has_zero_times _ Hz)) in Hrun.
    discriminate.
Qed.
(** The division of the script, on positive reals. *)
Lemma div_positive_self x : positive_real x = true -> div x x = one.
Proof.
  destruct x as [s|s| |s m e]; try discriminate. intros _. apply div_self.
Qed.

Lemma div_positive_antitone c a b :
  positive_real c = true -> positive_real a = true -> positive_real b = true ->
  ltb a b = true -> geb (div c a) (div c b) = true.
Proof.
  destruct c as [?|?| |[|] mc ec]; try discriminate.
  destruct a as [?|?| |[|] ma ea]; try discriminate.
  destruct b as [?|?| |[|] mb eb]; try discriminate.
  cbn [positive_real]. intros _ Ba Bb Hlt.
  apply div_antitone; assumption.
Qed.

(* ================================================================== *)
(** ** The specification *)
(* ================================================================== *)

(** C1. On a non-empty sequence of measurements whose elapsed times are
    all nonzero, [compute_speedups] returns a sequence of the same length
    and in the same order, whose i-th element pairs the i-th worker count
    with the first elapsed time divided by the i-th elapsed time. *)
Theorem compute_speedups_returns (ms : list Measurement) (m0 : Measurement) (w : world) :
  hd_error ms = Some m0 ->
  no_zero ms ->
  exists out,
    compute_speedups ms w = (w, Ok out)
    /\ length out = length ms
    /\ forall i m, nth_error ms i = Some m ->
         nth_error out i
         = Some (workers m, div (elapsed_seconds m0) (elapsed_seconds m)).
Proof.
  intros Hhd Hnz. destruct ms as [|m ms]; [discriminate|].
  injection Hhd as ->.
  eexists. split; [apply compute_speedups_ok, Hnz|].
  split; [apply length_map|].
  intros i x Hx. rewrite nth_error_map, Hx. reflexivity.
Qed.

Lemma compute_speedups_returns_witness :
  hd_error sample = Some {| workers := 1; elapsed_seconds := of_decimal 3283 2 |}
  /\ exists out,
       compute_speedups sample initial_world = (initial_world, Ok out)
       /\ length out = length sample
       /\ forall i m, nth_error sample i = Some m ->
            nth_error out i
            = Some (workers m, div (of_decimal 3283 2) (elapsed_seconds m)).
Proof.
  split; [reflexivity|].
  apply (compute_speedups_returns sample
           {| workers := 1; elapsed_seconds := of_decimal 3283 2 |} initial_world).
  - reflexivity.
  - repeat constructor; vm_compute; reflexivity.
Defined.

(** C2. On a non-empty sequence of measurements with positive elapsed
    times the first speedup is exactly 1.0; the other points follow, one
    per remaining measurement, so a single measurement yields exactly one
    point, of speedup 1.0. *)
Theorem first_speedup_is_one (ms : list Measurement) (m0 : Measurement)
    (rest : list Measurement) (w : world) :
  ms = m0 :: rest ->
  all_positive ms ->
  exists tail,
    compute_speedups ms w = (w, Ok ((workers m0, one) :: tail))
    /\ length tail = length rest.
Proof.
  intros -> Hpos.
  pose proof (all_positive_no_zero _ Hpos) as Hnz.
  rewrite (compute_speedups_ok m0 rest w Hnz). cbn [map].
  rewrite div_positive_self by (inversion Hpos; assumption).
  eexists. split; [reflexivity|]. apply length_map.
Qed.

Lemma first_speedup_is_one_witness :
  all_positive [ {| workers := 8; elapsed_seconds := of_decimal 631 2 |} ]
  /\ exists tail,
       compute_speedups [ {| workers := 8; elapsed_seconds := of_decimal 631 2 |} ]
         initial_world
       = (initial_world, Ok ((8, one) :: tail))
       /\ length tail = 0%nat.
Proof.
  assert (H : all_positive [ {| workers := 8; elapsed_seconds := of_decimal 631 2 |} ])
    by (repeat constructor).
  split; [exact H|].
  exact (first_speedup_is_one _ {| workers := 8; elapsed_seconds := of_decimal 631 2 |}
           [] initial_world eq_refl H).
Defined.

(** C3. When some elapsed time of the dataset is zero the program fails
    with [ZeroDivisionError] before anything is drawn: the chart is
    untouched, no image is written, nothing is printed. *)
Theorem zero_elapsed_raises (lib : library) (writable : string -> bool)
    (ms : list Measurement) :
  has_zero ms ->
  exists w,
    run lib writable ms = (w, Raise ZeroDivisionError)
    /\ chart w = [] /\ files w = [] /\ stdout w = [].
Proof.
  intros H. exists initial_world. split; [|repeat split].
  unfold run. apply script_zero, has_zero_times, H.
Qed.

Lemma zero_elapsed_raises_witness :
  exists w,
    run strict (fun _ => true)
      [ {| workers := 1; elapsed_seconds := of_decimal 3283 2 |};
        {| workers := 2; elapsed_seconds := S754_zero true |};
        {| workers := 4; elapsed_seconds := of_decimal 956 2 |} ]
    = (w, Raise ZeroDivisionError)
    /\ chart w = [] /\ files w = [] /\ stdout w = [].
Proof.
  apply zero_elapsed_raises. right. left. reflexivity.
Defined.

(** C4, as stated, fails: a dataset whose worker counts decrease is
    invalid for the specification, yet the script raises nothing, draws
    the chart and writes the image. *)
Lemma invalid_input_not_rejected :
  invalid_input unordered
  /\ snd (run strict (fun _ => true) unordered) = Ok tt
  /\ chart (fst (run strict (fun _ => true) unordered)) <> []
  /\ files (fst (run strict (fun _ => true) unordered)) <> [].
Proof.
  split; [right; left; reflexivity|].
  split; [vm_compute; reflexivity|].
  split; vm_compute; discriminate.
Qed.

(** C4, amended. The script validates nothing by itself.  An empty
    dataset fails with [IndexError] and a dataset with a zero elapsed time
    fails with [ZeroDivisionError], both before anything is drawn.  Every
    other dataset is drawn, whatever the order of its worker counts and
    the sign of its elapsed times. *)
Theorem abort_before_rendering (lib : library) (writable : string -> bool)
    (ms : list Measurement) :
  (ms = [] -> run lib writable ms = (initial_world, Raise IndexError))
  /\ (has_zero ms -> run lib writable ms = (initial_world, Raise ZeroDivisionError))
  /\ (ms <> [] -> no_zero ms ->
      chart (fst (run lib writable ms)) <> []
      /\ snd (run lib writable ms) <> Raise IndexError
      /\ snd (run lib writable ms) <> Raise ZeroDivisionError).
Proof.
  split; [|split].
  - intros ->. reflexivity.
  - intros H. unfold run. apply script_zero, has_zero_times, H.
  - intros Hne Hnz. destruct ms as [|m0 rest]; [congruence|].
    apply (run_elim lib writable m0 rest); [exact Hnz| |].
    + intros p e [->|[le ->]]; cbn [fst snd chart];
        repeat split; try discriminate; destruct le; discriminate.
    + intros _. cbn [fst snd]. repeat split; discriminate.
Qed.

Lemma abort_before_rendering_witness :
  run strict (fun _ => true) [] = (initial_world, Raise IndexError)
  /\ run strict (fun _ => true)
       [ {| workers := 1; elapsed_seconds := S754_zero false |} ]
     = (initial_world, Raise ZeroDivisionError)
  /\ (chart (fst (run strict (fun _ => true) unordered)) <> []
      /\ snd (run strict (fun _ => true) unordered) <> Raise IndexError
      /\ snd (run strict (fun _ => true) unordered) <> Raise ZeroDivisionError).
Proof.
  split; [|split].
  - apply (proj1 (abort_before_rendering strict (fun _ => true) [])). reflexivity.
  - apply (proj1 (proj2 (abort_before_rendering strict (fun _ => true)
             [ {| workers := 1; elapsed_seconds := S754_zero false |} ]))).
    left. reflexivity.
  - apply (proj2 (proj2 (abort_before_rendering strict (fun _ => true) unordered))).
    + discriminate.
    + repeat constructor.
Defined.

(** The literals of line 4 are the binary64 values nearest to the decimal
    numbers written in the source. *)
Lemma times_are_nearest :
  map (fun '(t, q) => nearest_to t q)
      (combine times [3283 # 100; 1595 # 100; 956 # 100; 631 # 100])
  = [true; true; true; true].
Proof. vm_compute. reflexivity. Qed.

Lemma main_is_run_sample lib writable : main lib writable = run lib writable sample.
Proof. reflexivity. Qed.

(** C5, as stated, fails in one digit: the third speedup, 32.83 / 9.56,
    is 3.4341..., more than a thousandth away from 3.433. *)
Lemma sample_third_speedup_off :
  exists s0 s1 s2 s3,
    speedups times initial_world = (initial_world, Ok [s0; s1; s2; s3])
    /\ s2 = div (of_decimal 3283 2) (of_decimal 956 2)
    /\ close_to s2 (3433 # 1000) (1 # 1000) = false
    /\ close_to s2 (3434 # 1000) (5 # 10000) = true.
Proof.
  do 4 eexists. split; [vm_compute; reflexivity|].
  split; [vm_compute; reflexivity|].
  split; vm_compute; reflexivity.
Qed.

(** C5, amended. On the literal dataset the speedups are 32.83/32.83,
    32.83/15.95, 32.83/9.56 and 32.83/6.31, that is 1.0 exactly and, to
    three decimals, 2.058, 3.434 and 5.203.  The chart has four markers
    at x = 1, 2, 4, 8; each is annotated, centred ten points above it,
    with its speedup to two decimals and an "x": "1.00x", "2.06x",
    "3.43x", "5.20x".  The ticks of the x-axis are 1, 2, 4, 8. *)
Theorem sample_chart (lib : library) (writable : string -> bool) :
  let s0 := div (of_decimal 3283 2) (of_decimal 3283 2) in
  let s1 := div (of_decimal 3283 2) (of_decimal 1595 2) in
  let s2 := div (of_decimal 3283 2) (of_decimal 956 2) in
  let s3 := div (of_decimal 3283 2) (of_decimal 631 2) in
  let c := chart (fst (main lib writable)) in
  compute_speedups sample initial_world
  = (initial_world, Ok [(1, s0); (2, s1); (4, s2); (8, s3)])
  /\ s0 = one
  /\ close_to s1 (2058 # 1000) (5 # 10000) = true
  /\ close_to s2 (3434 # 1000) (5 # 10000) = true
  /\ close_to s3 (5203 # 1000) (5 # 10000) = true
  /\ chart_markers c
     = [(PyInt 1, PyFloat s0); (PyInt 2, PyFloat s1);
        (PyInt 4, PyFloat s2); (PyInt 8, PyFloat s3)]
  /\ chart_annotations c
     = [("1.00x"%string, (PyInt 1, PyFloat s0),
           ("offset points"%string, (0, 10), "center"%string));
        ("2.06x"%string, (PyInt 2, PyFloat s1),
           ("offset points"%string, (0, 10), "center"%string));
        ("3.43x"%string, (PyInt 4, PyFloat s2),
           ("offset points"%string, (0, 10), "center"%string));
        ("5.20x"%string, (PyInt 8, PyFloat s3),
           ("offset points"%string, (0, 10), "center"%string))]
  /\ chart_xticks c = Some [PyInt 1; PyInt 2; PyInt 4; PyInt 8].
Proof.
  intros s0 s1 s2 s3 c.
  assert (Hc : c = render_calls threads [s0; s1; s2; s3]).
  { unfold c. rewrite main_is_run_sample. unfold sample.
    rewrite run_chart by (repeat constructor). reflexivity. }
  rewrite Hc.
  repeat split; vm_compute; reflexivity.
Qed.

(** C6, as stated, fails: binary64 division rounds, and two elapsed times
    one unit in the last place apart can get the same speedup.  With the
    times 8.0, 7.0 and 7.000000000000001 the second is below the third,
    and both speedups are 1.1428571428571428. *)
Lemma speedup_not_strictly_decreasing :
  all_positive tied
  /\ ltb (of_decimal 7 0) (of_decimal 7000000000000001 15) = true
  /\ exists sa sb,
       compute_speedups tied initial_world
       = (initial_world, Ok [(1, one); (2, sa); (4, sb)])
       /\ gtb sa sb = false
       /\ sa = sb.
Proof.
  split; [repeat constructor|].
  split; [vm_compute; reflexivity|].
  do 2 eexists. split; [vm_compute; reflexivity|].
  split; vm_compute; reflexivity.
Qed.

(** C6, amended. Speedup never increases with elapsed time: for two
    measurements a and b of a dataset with positive elapsed times, if a's
    elapsed time is below b's then the speedup computed for a is greater
    than or equal to the speedup computed for b. *)
Theorem speedup_antitone (ms : list Measurement) (w : world)
    (i j : nat) (a b : Measurement) :
  all_positive ms ->
  nth_error ms i = Some a ->
  nth_error ms j = Some b ->
  ltb (elapsed_seconds a) (elapsed_seconds b) = true ->
  exists out sa sb,
    compute_speedups ms w = (w, Ok out)
    /\ nth_error out i = Some (workers a, sa)
    /\ nth_error out j = Some (workers b, sb)
    /\ geb sa sb = true.
Proof.
  intros Hpos Ha Hb Hlt.
  destruct ms as [|m0 rest]; [destruct i; discriminate|].
  pose proof (all_positive_no_zero _ Hpos) as Hnz.
  unfold all_positive in Hpos. rewrite Forall_forall in Hpos.
  exists (map (fun m => (workers m, div (elapsed_seconds m0) (elapsed_seconds m)))
            (m0 :: rest)),
    (div (elapsed_seconds m0) (elapsed_seconds a)),
    (div (elapsed_seconds m0) (elapsed_seconds b)).
  split; [apply compute_speedups_ok, Hnz|].
  split; [rewrite nth_error_map, Ha; reflexivity|].
  split; [rewrite nth_error_map, Hb; reflexivity|].
  apply div_positive_antitone; try assumption.
  - apply Hpos. left. reflexivity.
  - apply Hpos. eapply nth_error_In, Ha.
  - apply Hpos. eapply nth_error_In, Hb.
Qed.

Lemma speedup_antitone_witness :
  all_positive sample
  /\ ltb (of_decimal 631 2) (of_decimal 956 2) = true
  /\ exists out sa sb,
       compute_speedups sample initial_world = (initial_world, Ok out)
       /\ nth_error out 3 = Some (8, sa)
       /\ nth_error out 2 = Some (4, sb)
       /\ geb sa sb = true.
Proof.
  assert (Hpos : all_positive sample) by (repeat constructor).
  assert (Hlt : ltb (of_decimal 631 2) (of_decimal 956 2) = true)
    by (vm_compute; reflexivity).
  split; [exact Hpos|]. split; [exact Hlt|].
  exact (speedup_antitone sample initial_world 3 2
           {| workers := 8; elapsed_seconds := of_decimal 631 2 |}
           {| workers := 4; elapsed_seconds := of_decimal 956 2 |}
           Hpos eq_refl eq_refl Hlt).
Defined.

(** C7. [compute_speedups] is pure: its outcome is the same in every
    world, it leaves the world as it found it, and two calls in a row on
    the same input return the same output twice. *)
Theorem compute_speedups_pure (ms : list Measurement) :
  exists r, forall w,
    compute_speedups ms w = (w, r)
    /\ call_twice ms w = (w, both r).
Proof.
  destruct (compute_speedups_same_everywhere ms) as [r Hr].
  exists r. intros w. split; [apply Hr|].
  unfold call_twice. destruct r as [out|e].
  - rewrite (bind_ok _ _ _ _ _ (Hr w)).
    rewrite (bind_ok _ _ _ _ _ (Hr w)). reflexivity.
  - apply bind_raise, Hr.
Qed.

(** C8. The chart of a run that returns normally has the title "Wa-Tor
    Simulation Parallel Speedup", the x-axis label "Number of Threads
    (Workers)", the y-axis label "Speedup Factor", and its x-axis ticks
    are the worker counts of the input, nothing more. *)
Theorem chart_title_labels_ticks (lib : library) (writable : string -> bool)
    (ms : list Measurement) (w : world) :
  run lib writable ms = (w, Ok tt) ->
  chart_title (chart w) = Some "Wa-Tor Simulation Parallel Speedup"%string
  /\ chart_xlabel (chart w) = Some "Number of Threads (Workers)"%string
  /\ chart_ylabel (chart w) = Some "Speedup Factor"%string
  /\ chart_xticks (chart w) = Some (ints (map workers ms)).
Proof.
  intros Hrun.
  destruct (run_success lib writable ms w Hrun) as (m0 & rest & _ & _ & _ & ->).
  unfold rendered. cbn [chart app].
  unfold render_calls, chart_title, chart_xlabel, chart_ylabel, chart_xticks.
  rewrite !app_assoc.
  repeat split; rewrite last_some_app; reflexivity.
Qed.

Lemma chart_title_labels_ticks_witness :
  exists w,
    run strict (fun _ => true) sample = (w, Ok tt)
    /\ chart_title (chart w) = Some "Wa-Tor Simulation Parallel Speedup"%string
    /\ chart_xlabel (chart w) = Some "Number of Threads (Workers)"%string
    /\ chart_ylabel (chart w) = Some "Speedup Factor"%string
    /\ chart_xticks (chart w) = Some [PyInt 1; PyInt 2; PyInt 4; PyInt 8].
Proof.
  eexists. split; [vm_compute; reflexivity|].
  eapply (chart_title_labels_ticks strict (fun _ => true) sample).
  vm_compute. reflexivity.
Defined.

(** C9. When the run succeeds, one image has been written, to
    "results_graph.png", at 300 dots per inch, showing the chart; and one
    line has been printed, the confirmation that names that file. *)
Theorem savefig_and_confirmation (lib : library) (writable : string -> bool)
    (ms : list Measurement) (w : world) :
  run lib writable ms = (w, Ok tt) ->
  files w = [ {| path := "results_graph.png"; dpi := 300; content := chart w |} ]
  /\ chart w <> []
  /\ stdout w = [ "Success! Graph saved as results_graph.png"%string ].
Proof.
  intros Hrun.
  destruct (run_success lib writable ms w Hrun) as (m0 & rest & _ & _ & _ & ->).
  repeat split. discriminate.
Qed.

Lemma savefig_and_confirmation_witness :
  exists w,
    run strict (fun _ => true) sample = (w, Ok tt)
    /\ files w = [ {| path := "results_graph.png"; dpi := 300; content := chart w |} ]
    /\ chart w <> []
    /\ stdout w = [ "Success! Graph saved as results_graph.png"%string ].
Proof.
  eexists. split; [vm_compute; reflexivity|].
  eapply (savefig_and_confirmation strict (fun _ => true) sample).
  vm_compute. reflexivity.
Defined.

(** C10. The speedups depend on the elapsed times only: two datasets
    with the same elapsed times and any worker counts get the same speedup
    at every position. *)
Theorem speedups_ignore_workers (ms1 ms2 : list Measurement) (w : world) :
  map elapsed_seconds ms1 = map elapsed_seconds ms2 ->
  speedup_values (compute_speedups ms1 w) = speedup_values (compute_speedups ms2 w).
Proof.
  intros Heq.
  assert (Hlen : length ms1 = length ms2).
  { rewrite <- (length_map elapsed_seconds ms1), Heq. apply length_map. }
  unfold compute_speedups. rewrite <- Heq.
  destruct (speedups_pure (map elapsed_seconds ms1)) as [[s|e] Hr].
  - pose proof (speedups_length _ _ _ _ (Hr w)) as Hs.
    rewrite length_map in Hs.
    rewrite !(bind_ok _ _ _ _ _ (Hr w)). unfold speedup_values, ret. cbn [snd].
    rewrite !map_snd_zip by (rewrite length_map; congruence).
    reflexivity.
  - rewrite !(bind_raise _ _ _ _ _ (Hr w)). reflexivity.
Qed.

Lemma speedups_ignore_workers_witness :
  map elapsed_seconds sample
  = map elapsed_seconds
      (map (fun m => {| workers := 16 - workers m;
                        elapsed_seconds := elapsed_seconds m |}) sample)
  /\ speedup_values (compute_speedups sample initial_world)
     = speedup_values
         (compute_speedups
            (map (fun m => {| workers := 16 - workers m;
                              elapsed_seconds := elapsed_seconds m |}) sample)
            initial_world).
Proof.
  split; [reflexivity|].
  apply speedups_ignore_workers. reflexivity.
Defined.

(* ================================================================== *)
(** ** The speedups as floats *)
(* ================================================================== *)

(** *** What rounding returns is a float of the format *)

Lemma finish_valid sx m e :
  rounded m e -> valid (finish sx m e) = true.
Proof.
  intros (Hm & He & Hn).
  change (2 ^ prec) with 9007199254740992 in *.
  change (2 ^ (prec - 1)) with 4503599627370496 in *.
  assert (C : m = 0 \/ m = 9007199254740992 \/ 0 < m < 9007199254740992) by lia.
  destruct C as [->|[->|C]].
  - rewrite finish_zero by assumption. reflexivity.
  - change 9007199254740992 with (2 ^ prec). rewrite finish_carry by assumption.
    destruct (Z.leb_spec (e + 1) (emax - prec)) as [Hle|Hgt]; [|reflexivity].
    unfold valid, valid_binary, bounded, canonical_mantissa. rewrite fexp_spec.
    apply andb_true_intro. split; [|apply Z.leb_le, Hle].
    apply Z.eqb_eq. change (Z.pos (digits2_pos (Z.to_pos (2 ^ (prec - 1))))) with 53.
    unfold fexp, emin, prec in *. lia.
  - destruct m as [|p|p]; try lia.
    rewrite finish_pos by (try assumption; change (2 ^ prec) with 9007199254740992; lia).
    destruct (Z.leb_spec e (emax - prec)) as [Hle|Hgt]; [|reflexivity].
    unfold valid, valid_binary, bounded, canonical_mantissa. rewrite fexp_spec.
    apply andb_true_intro. split; [|apply Z.leb_le, Hle].
    apply Z.eqb_eq.
    pose proof (Zdigits2_le (Zpos p) 53 ltac:(lia) ltac:(change (2 ^ 53) with 9007199254740992; lia)) as Hd.
    cbn [Zdigits2] in Hd.
    destruct (Z.eq_dec e emin) as [->|Hne].
    + unfold fexp, emin, prec in *. lia.
    + specialize (Hn ltac:(lia)).
      pose proof (Zdigits2_ge (Zpos p) 53 ltac:(lia) ltac:(change (2 ^ (53 - 1)) with 4503599627370496; lia)) as Hd'.
      cbn [Zdigits2] in Hd'.
      unfold fexp, emin, prec in *. lia.
Qed.

(** *** A positive rounding is never below zero, and never NaN *)

Lemma finish_nonnegative m e :
  rounded m e -> SFleb (S754_zero false) (finish false m e) = true.
Proof.
  intros (Hm & He & Hn).
  change (2 ^ prec) with 9007199254740992 in *.
  assert (C : m = 0 \/ m = 9007199254740992 \/ 0 < m < 9007199254740992) by lia.
  destruct C as [->|[->|C]].
  - rewrite finish_zero by assumption. reflexivity.
  - change 9007199254740992 with (2 ^ prec). rewrite finish_carry by assumption.
    destruct (e + 1 <=? emax - prec); reflexivity.
  - destruct m as [|p|p]; try lia.
    rewrite finish_pos by (try assumption; change (2 ^ prec) with 9007199254740992; lia).
    destruct (e <=? emax - prec); reflexivity.
Qed.

Lemma div_finite_positive_valid mc ec ma ea :
  valid (div (S754_finite false mc ec) (S754_finite false ma ea)) = true
  /\ geb (div (S754_finite false mc ec) (S754_finite false ma ea)) zero = true.
Proof.
  destruct (div_rounds mc ec ma ea) as (a & b & e & Ha & Hb & _ & F & E).
  unfold div, geb, leb, zero. rewrite E.
  pose proof (in_format_rounded a b e Ha Hb F) as R.
  split; [apply finish_valid, R|apply finish_nonnegative, R].
Qed.

Lemma div_positive_valid c a :
  positive_real c = true -> positive_real a = true ->
  valid (div c a) = true /\ geb (div c a) zero = true.
Proof.
  destruct c as [?|?| |[|] mc ec]; try discriminate.
  destruct a as [?|?| |[|] ma ea]; try discriminate.
  intros _ _. apply div_finite_positive_valid.
Qed.

(** *** The order of floats *)

(** Swapping the operands of a comparison mirrors its outcome. *)
Lemma SFcompare_swap x y :
  SFcompare y x = option_map CompOpp (SFcompare x y).
Proof.
  destruct x as [sx|sx| |sx mx ex], y as [sy|sy| |sy my ey];
    try destruct sx; try destruct sy; try reflexivity;
    cbn [SFcompare option_map];
    rewrite (Z.compare_antisym ex ey);
    destruct (ex ?= ey); cbn [CompOpp]; try reflexivity;
    change (Pos.compare_cont Eq my mx) with (Pos.compare my mx);
    change (Pos.compare_cont Eq mx my) with (Pos.compare mx my);
    rewrite (Pos.compare_antisym mx my);
    destruct (mx ?= my)%positive; reflexivity.
Qed.

Lemma leb_not_gtb x y : leb x y = true -> gtb x y = false.
Proof.
  unfold leb, gtb, SFleb, SFltb. rewrite (SFcompare_swap x y).
  destruct (SFcompare x y) as [[| |]|]; cbn; congruence.
Qed.

(** Two finite positive floats are equal or one is below the other. *)
Lemma finite_positive_trichotomy m1 e1 m2 e2 :
  ltb (S754_finite false m1 e1) (S754_finite false m2 e2) = true
  \/ (m1 = m2 /\ e1 = e2)
  \/ ltb (S754_finite false m2 e2) (S754_finite false m1 e1) = true.
Proof.
  unfold ltb, SFltb. cbn [SFcompare].
  rewrite (Z.compare_antisym e1 e2).
  destruct (Z.compare_spec e1 e2) as [He|He|He]; cbn [CompOpp]; auto.
  change (Pos.compare_cont Eq m1 m2) with (Pos.compare m1 m2).
  change (Pos.compare_cont Eq m2 m1) with (Pos.compare m2 m1).
  rewrite (Pos.compare_antisym m1 m2).
  destruct (Pos.compare_spec m1 m2) as [Hm|Hm|Hm]; cbn [CompOpp]; auto.
Qed.

Lemma positive_real_trichotomy a b :
  positive_real a = true -> positive_real b = true ->
  ltb a b = true \/ a = b \/ ltb b a = true.
Proof.
  destruct a as [?|?| |[|] ma ea]; try discriminate.
  destruct b as [?|?| |[|] mb eb]; try discriminate.
  intros _ _.
  destruct (finite_positive_trichotomy ma ea mb eb) as [H|[(-> & ->)|H]]; auto.
Qed.

Lemma leb_refl_positive x : positive_real x = true -> leb x x = true.
Proof.
  destruct x as [?|?| |[|] m e]; try discriminate. intros _.
  unfold leb, SFleb. cbn [SFcompare]. rewrite Z.compare_refl.
  change (Pos.compare_cont Eq m m) with (Pos.compare m m).
  rewrite Pos.compare_refl. reflexivity.
Qed.

(** [x <= y] on positive reals: below, or the same float. *)
Lemma leb_positive_cases a b :
  positive_real a = true -> positive_real b = true ->
  leb a b = true -> ltb a b = true \/ a = b.
Proof.
  intros Pa Pb H.
  destruct (positive_real_trichotomy a b Pa Pb) as [Hlt|[Heq|Hgt]]; auto.
  apply leb_not_gtb in H. unfold gtb in H. unfold ltb in Hgt. congruence.
Qed.

(** *** Speedups against 1.0 *)

Lemma div_at_least_one c a :
  positive_real c = true -> positive_real a = true ->
  leb a c = true -> geb (div c a) one = true.
Proof.
  intros Pc Pa H.
  destruct (leb_positive_cases a c Pa Pc H) as [Hlt | ->].
  - rewrite <- (div_positive_self c Pc).
    apply div_positive_antitone; assumption.
  - rewrite (div_positive_self c Pc). reflexivity.
Qed.

Lemma div_at_most_one c a :
  positive_real c = true -> positive_real a = true ->
  leb c a = true -> leb (div c a) one = true.
Proof.
  intros Pc Pa H.
  destruct (leb_positive_cases c a Pc Pa H) as [Hlt | <-].
  - rewrite <- (div_positive_self c Pc).
    apply (div_positive_antitone c c a); assumption.
  - rewrite (div_positive_self c Pc). reflexivity.
Qed.

(** A strictly larger quotient comes from a strictly smaller divisor. *)
Lemma div_order_reflects c a b :
  positive_real c = true -> positive_real a = true -> positive_real b = true ->
  gtb (div c a) (div c b) = true -> ltb a b = true.
Proof.
  intros Pc Pa Pb H.
  destruct (positive_real_trichotomy a b Pa Pb) as [Hlt | [-> | Hgt]]; [assumption| |].
  - exfalso. destruct (div_positive_valid c b Pc Pb) as [_ Hn].
    unfold gtb, SFltb in H. unfold geb, leb, SFleb in Hn.
    destruct (div c b) as [[|]|[|]| |[|] m e]; cbn in H, Hn; try discriminate.
    rewrite Z.compare_refl in H.
    change (Pos.compare_cont Eq m m) with (Pos.compare m m) in H.
    rewrite Pos.compare_refl in H. discriminate.
  - exfalso. pose proof (div_positive_antitone c b a Pc Pb Pa Hgt) as Hle.
    unfold geb in Hle. apply leb_not_gtb in Hle. congruence.
Qed.

(* ================================================================== *)
(** ** The chart of a run *)
(* ================================================================== *)

Lemma markers_of_zip (ths : list Z) (sp : list float) :
  combine (ints ths) (floats sp) = map marker_of (zip ths sp).
Proof.
  unfold ints, floats, zip. revert sp.
  induction ths as [|x ths IH]; intros [|y sp]; cbn; try reflexivity.
  rewrite IH. reflexivity.
Qed.

Lemma annotations_have_no_marker (l : list SpeedupPoint) :
  chart_markers
    (map (fun '(x, y) =>
            Annotate (format_2f y ++ "x")%string (PyInt x, PyFloat y)
              "offset points" (0, 10) "center" 10 "bold") l) = [].
Proof. induction l as [|[x y] l IH]; cbn; [reflexivity|exact IH]. Qed.

Lemma annotations_are_no_curve (l : list SpeedupPoint) :
  chart_curves
    (map (fun '(x, y) =>
            Annotate (format_2f y ++ "x")%string (PyInt x, PyFloat y)
              "offset points" (0, 10) "center" 10 "bold") l) = [].
Proof. induction l as [|[x y] l IH]; cbn; [reflexivity|exact IH]. Qed.

Lemma annotations_of_loop (l : list SpeedupPoint) :
  chart_annotations
    (map (fun '(x, y) =>
            Annotate (format_2f y ++ "x")%string (PyInt x, PyFloat y)
              "offset points" (0, 10) "center" 10 "bold") l)
  = map annotation_of l.
Proof.
  induction l as [|[x y] l IH]; cbn; [reflexivity|].
  f_equal. exact IH.
Qed.

Lemma render_calls_markers ths sp :
  chart_markers (render_calls ths sp) = map marker_of (zip ths sp).
Proof.
  unfold render_calls, chart_markers. rewrite !flat_map_app.
  fold (chart_markers (map (fun '(x, y) =>
            Annotate (format_2f y ++ "x")%string (PyInt x, PyFloat y)
              "offset points" (0, 10) "center" 10 "bold") (zip ths sp))).
  rewrite annotations_have_no_marker. cbn [flat_map marker app].
  rewrite !app_nil_r. apply markers_of_zip.
Qed.

Lemma render_calls_annotations ths sp :
  chart_annotations (render_calls ths sp) = map annotation_of (zip ths sp).
Proof.
  unfold render_calls. unfold chart_annotations at 1. rewrite !flat_map_app.
  fold (chart_annotations (map (fun '(x, y) =>
            Annotate (format_2f y ++ "x")%string (PyInt x, PyFloat y)
              "offset points" (0, 10) "center" 10 "bold") (zip ths sp))).
  rewrite annotations_of_loop. cbn [flat_map app].
  rewrite app_nil_r. reflexivity.
Qed.

Lemma render_calls_curves ths sp :
  chart_curves (render_calls ths sp)
  = [ (ints ths, ints ths, "Ideal Linear Speedup"%string);
      (ints ths, floats sp, "Actual Speedup"%string) ].
Proof.
  unfold render_calls. unfold chart_curves at 1. rewrite !flat_map_app.
  fold (chart_curves (map (fun '(x, y) =>
            Annotate (format_2f y ++ "x")%string (PyInt x, PyFloat y)
              "offset points" (0, 10) "center" 10 "bold") (zip ths sp))).
  rewrite annotations_are_no_curve. reflexivity.
Qed.

(** The points [compute_speedups] returns are the columns [render] gets. *)
Lemma points_are_columns (m0 : Measurement) (ms : list Measurement) :
  zip (map workers ms) (map (div (elapsed_seconds m0)) (map elapsed_seconds ms))
  = map (fun m => (workers m, div (elapsed_seconds m0) (elapsed_seconds m))) ms.
Proof. rewrite map_map. apply zip_map. Qed.

(* ================================================================== *)
(** ** Further properties of the script *)
(* ================================================================== *)

(** X1. On a non-empty dataset with positive elapsed times every speedup
    is a float of the format that is not below zero: never NaN, never
    negative. *)
Theorem speedups_valid_nonnegative (ms : list Measurement) (w : world) :
  ms <> [] ->
  all_positive ms ->
  exists out,
    compute_speedups ms w = (w, Ok out)
    /\ Forall (fun p => valid (snd p) = true /\ geb (snd p) zero = true) out.
Proof.
  intros Hne Hpos. destruct ms as [|m0 rest]; [congruence|].
  eexists. split; [apply compute_speedups_ok, all_positive_no_zero, Hpos|].
  apply Forall_map. unfold all_positive in Hpos.
  assert (P0 : positive_real (elapsed_seconds m0) = true)
    by (inversion Hpos; assumption).
  eapply Forall_impl; [|exact Hpos].
  intros m Pm. cbn [snd]. apply div_positive_valid; assumption.
Qed.

Lemma speedups_valid_nonnegative_witness :
  sample <> [] /\ all_positive sample
  /\ exists out,
       compute_speedups sample initial_world = (initial_world, Ok out)
       /\ Forall (fun p => valid (snd p) = true /\ geb (snd p) zero = true) out.
Proof.
  assert (Hne : sample <> []) by discriminate.
  assert (Hpos : all_positive sample) by (repeat constructor).
  split; [exact Hne|]. split; [exact Hpos|].
  exact (speedups_valid_nonnegative sample initial_world Hne Hpos).
Defined.

(** X2. When no elapsed time of the dataset exceeds the first one (the
    baseline is the slowest run), every speedup is at least 1.0. *)
Theorem slowest_baseline_speedups_at_least_one (m0 : Measurement)
    (rest : list Measurement) (w : world) :
  all_positive (m0 :: rest) ->
  Forall (fun m => leb (elapsed_seconds m) (elapsed_seconds m0) = true) (m0 :: rest) ->
  exists out,
    compute_speedups (m0 :: rest) w = (w, Ok out)
    /\ Forall (fun p => geb (snd p) one = true) out.
Proof.
  intros Hpos Hmax.
  eexists. split; [apply compute_speedups_ok, all_positive_no_zero, Hpos|].
  apply Forall_map.
  assert (P0 : positive_real (elapsed_seconds m0) = true)
    by (inversion Hpos; assumption).
  unfold all_positive in Hpos. rewrite Forall_forall in Hpos, Hmax.
  apply Forall_forall. intros m Hin. cbn [snd].
  apply div_at_least_one; auto.
Qed.

Lemma slowest_baseline_speedups_at_least_one_witness :
  all_positive sample
  /\ exists out,
       compute_speedups sample initial_world = (initial_world, Ok out)
       /\ Forall (fun p => geb (snd p) one = true) out.
Proof.
  assert (Hpos : all_positive sample) by (repeat constructor).
  split; [exact Hpos|].
  apply (slowest_baseline_speedups_at_least_one
           {| workers := 1; elapsed_seconds := of_decimal 3283 2 |}
           [ {| workers := 2; elapsed_seconds := of_decimal 1595 2 |};
             {| workers := 4; elapsed_seconds := of_decimal 956 2 |};
             {| workers := 8; elapsed_seconds := of_decimal 631 2 |} ]
           initial_world Hpos).
  repeat constructor.
Defined.

(** X3. A measurement that took at least as long as the first one gets a
    speedup of at most 1.0. *)
Theorem slower_than_baseline_at_most_one (m0 : Measurement)
    (rest : list Measurement) (w : world) (i : nat) (m : Measurement) :
  all_positive (m0 :: rest) ->
  nth_error (m0 :: rest) i = Some m ->
  leb (elapsed_seconds m0) (elapsed_seconds m) = true ->
  exists out s,
    compute_speedups (m0 :: rest) w = (w, Ok out)
    /\ nth_error out i = Some (workers m, s)
    /\ leb s one = true.
Proof.
  intros Hpos Hm Hle.
  do 2 eexists. split; [apply compute_speedups_ok, all_positive_no_zero, Hpos|].
  split; [rewrite nth_error_map, Hm; reflexivity|].
  unfold all_positive in Hpos. rewrite Forall_forall in Hpos.
  apply div_at_most_one; try assumption.
  - apply Hpos. left. reflexivity.
  - apply Hpos. eapply nth_error_In, Hm.
Qed.

Lemma slower_than_baseline_at_most_one_witness :
  all_positive unordered
  /\ leb (of_decimal 10 0) (of_decimal 20 0) = true
  /\ exists out s,
       compute_speedups unordered initial_world = (initial_world, Ok out)
       /\ nth_error out 1 = Some (1, s)
       /\ leb s one = true.
Proof.
  assert (Hpos : all_positive unordered) by (repeat constructor).
  assert (Hle : leb (of_decimal 10 0) (of_decimal 20 0) = true)
    by (vm_compute; reflexivity).
  split; [exact Hpos|]. split; [exact Hle|].
  exact (slower_than_baseline_at_most_one
           {| workers := 2; elapsed_seconds := of_decimal 10 0 |}
           [ {| workers := 1; elapsed_seconds := of_decimal 20 0 |} ]
           initial_world 1
           {| workers := 1; elapsed_seconds := of_decimal 20 0 |}
           Hpos eq_refl Hle).
Defined.

(** X4. The ranking by speedup is sound: when the speedup computed for a
    is strictly greater than the one computed for b, the elapsed time of
    a is strictly below that of b. *)
Theorem greater_speedup_means_faster (ms : list Measurement) (w : world)
    (i j : nat) (a b : Measurement) :
  all_positive ms ->
  nth_error ms i = Some a ->
  nth_error ms j = Some b ->
  exists out sa sb,
    compute_speedups ms w = (w, Ok out)
    /\ nth_error out i = Some (workers a, sa)
    /\ nth_error out j = Some (workers b, sb)
    /\ (gtb sa sb = true ->
        ltb (elapsed_seconds a) (elapsed_seconds b) = true).
Proof.
  intros Hpos Ha Hb.
  destruct ms as [|m0 rest]; [destruct i; discriminate|].
  do 3 eexists. split; [apply compute_speedups_ok, all_positive_no_zero, Hpos|].
  split; [rewrite nth_error_map, Ha; reflexivity|].
  split; [rewrite nth_error_map, Hb; reflexivity|].
  unfold all_positive in Hpos. rewrite Forall_forall in Hpos.
  apply div_order_reflects.
  - apply Hpos. left. reflexivity.
  - apply Hpos. eapply nth_error_In, Ha.
  - apply Hpos. eapply nth_error_In, Hb.
Qed.

Lemma greater_speedup_means_faster_witness :
  all_positive sample
  /\ exists out sa sb,
       compute_speedups sample initial_world = (initial_world, Ok out)
       /\ nth_error out 3 = Some (8, sa)
       /\ nth_error out 1 = Some (2, sb)
       /\ (gtb sa sb = true -> ltb (of_decimal 631 2) (of_decimal 1595 2) = true).
Proof.
  assert (Hpos : all_positive sample) by (repeat constructor).
  split; [exact Hpos|].
  exact (greater_speedup_means_faster sample initial_world 3 1
           {| workers := 8; elapsed_seconds := of_decimal 631 2 |}
           {| workers := 2; elapsed_seconds := of_decimal 1595 2 |}
           Hpos eq_refl eq_refl).
Defined.





(** X7. The chart of a run that returns normally shows the points
    [compute_speedups] returns, one marker and one annotation per point
    and in the same order; each annotation sits on its marker and reads
    the speedup to two decimals followed by "x". *)
Theorem chart_shows_speedup_points (lib : library) (writable : string -> bool)
    (ms : list Measurement) (w : world) :
  run lib writable ms = (w, Ok tt) ->
  exists points,
    (forall w', compute_speedups ms w' = (w', Ok points))
    /\ chart_markers (chart w) = map marker_of points
    /\ chart_annotations (chart w) = map annotation_of points.
Proof.
  intros Hrun.
  destruct (run_success lib writable ms w Hrun) as (m0 & rest & -> & Hnz & _ & ->).
  eexists. split; [intros w'; apply compute_speedups_ok, Hnz|].
  unfold rendered, initial_world. cbn [chart app].
  rewrite render_calls_markers, render_calls_annotations, points_are_columns.
  split; reflexivity.
Qed.

Lemma chart_shows_speedup_points_witness :
  exists w points,
    run strict (fun _ => true) sample = (w, Ok tt)
    /\ (forall w', compute_speedups sample w' = (w', Ok points))
    /\ chart_markers (chart w) = map marker_of points
    /\ chart_annotations (chart w) = map annotation_of points.
Proof.
  assert (Hrun : run strict (fun _ => true) sample
                 = (fst (run strict (fun _ => true) sample), Ok tt))
    by (vm_compute; reflexivity).
  destruct (chart_shows_speedup_points strict (fun _ => true) sample _ Hrun)
    as (points & H).
  exists (fst (run strict (fun _ => true) sample)), points.
  split; [exact Hrun|exact H].
Defined.

(** X8. The chart of a run that returns normally has two curves over the
    worker counts of the input: first the ideal one, the worker counts
    against themselves, labelled "Ideal Linear Speedup"; then the actual
    one, the speedups, labelled "Actual Speedup". *)
Theorem chart_has_ideal_and_actual_curve (lib : library) (writable : string -> bool)
    (m0 : Measurement) (rest : list Measurement) (w : world) :
  run lib writable (m0 :: rest) = (w, Ok tt) ->
  let xs := ints (map workers (m0 :: rest)) in
  let ys := floats (map (fun m => div (elapsed_seconds m0) (elapsed_seconds m))
                      (m0 :: rest)) in
  chart_curves (chart w)
  = [ (xs, xs, "Ideal Linear Speedup"%string);
      (xs, ys, "Actual Speedup"%string) ].
Proof.
  intros Hrun xs ys.
  destruct (run_success lib writable _ w Hrun) as (m0' & rest' & E & _ & _ & ->).
  injection E as <- <-.
  unfold rendered, initial_world. cbn [chart app]. rewrite render_calls_curves.
  unfold xs, ys. rewrite map_map. reflexivity.
Qed.

Lemma chart_has_ideal_and_actual_curve_witness :
  exists w,
    run strict (fun _ => true) unordered = (w, Ok tt)
    /\ chart_curves (chart w)
       = [ ([PyInt 2; PyInt 1], [PyInt 2; PyInt 1], "Ideal Linear Speedup"%string);
           ([PyInt 2; PyInt 1],
            [PyFloat (div (of_decimal 10 0) (of_decimal 10 0));
             PyFloat (div (of_decimal 10 0) (of_decimal 20 0))],
            "Actual Speedup"%string) ].
Proof.
  eexists. split; [vm_compute; reflexivity|].
  apply (chart_has_ideal_and_actual_curve strict (fun _ => true)
           {| workers := 2; elapsed_seconds := of_decimal 10 0 |}
           [ {| workers := 1; elapsed_seconds := of_decimal 20 0 |} ]).
  vm_compute. reflexivity.
Defined.

(** X9. When [threads] and [times] differ in length ([threads] holding
    integers a double holds exactly, [times] not empty and without a
    zero) the script fails with [ValueError] at the second [plot]: only
    the ideal curve was drawn, no image is written and nothing is
    printed. *)
Theorem mismatched_columns_raise (lib : library) (writable : string -> bool)
    (ths : list Z) (ts : list float) :
  ts <> [] ->
  Forall (fun t => eqb t zero = false) ts ->
  Forall (fun n => exact_int n = true) ths ->
  length ths <> length ts ->
  exists w,
    script lib writable ths ts initial_world = (w, Raise ValueError)
    /\ chart_curves (chart w) = [ (ints ths, ints ths, "Ideal Linear Speedup"%string) ]
    /\ files w = [] /\ stdout w = [].
Proof.
  intros Hne Hnz Hex Hlen. destruct ts as [|b ts]; [congruence|].
  unfold script. rewrite (bind_ok _ _ _ _ _ (speedups_ok b ts initial_world Hnz)).
  unfold render.
  unfold bind at 1, plt.figure. rewrite record_run.
  unfold bind at 1.
  rewrite plot_run by (try reflexivity; cbn; rewrite (safe_ints ths Hex); reflexivity).
  unfold bind at 1.
  rewrite plot_mismatch.
  - eexists. split; [reflexivity|]. repeat split.
  - unfold ints, floats. rewrite !length_map. exact Hlen.
  - cbn. rewrite (safe_ints ths Hex), safe_floats. reflexivity.
Qed.

Lemma mismatched_columns_raise_witness :
  exists w,
    script strict (fun _ => true) [1; 2; 4] times initial_world = (w, Raise ValueError)
    /\ chart_curves (chart w)
       = [ (ints [1; 2; 4], ints [1; 2; 4], "Ideal Linear Speedup"%string) ]
    /\ files w = [] /\ stdout w = [].
Proof.
  apply (mismatched_columns_raise strict (fun _ => true) [1; 2; 4] times).
  - discriminate.
  - repeat constructor.
  - repeat constructor.
  - discriminate.
Defined.

(** X10. On a dataset with positive elapsed times the first annotation of
    the chart of a run that returns normally reads "1.00x" and sits on
    the point (first worker count, 1.0). *)
Theorem baseline_is_annotated_one (lib : library) (writable : string -> bool)
    (m0 : Measurement) (rest : list Measurement) (w : world) :
  all_positive (m0 :: rest) ->
  run lib writable (m0 :: rest) = (w, Ok tt) ->
  hd_error (chart_annotations (chart w))
  = Some ("1.00x"%string, (PyInt (workers m0), PyFloat one),
          ("offset points"%string, (0, 10), "center"%string)).
Proof.
  intros Hpos Hrun.
  destruct (run_success lib writable _ w Hrun) as (m0' & rest' & E & _ & _ & ->).
  injection E as <- <-.
  unfold rendered, initial_world. cbn [chart app].
  rewrite render_calls_annotations, points_are_columns. cbn [map hd_error].
  rewrite div_positive_self by (inversion Hpos; assumption).
  reflexivity.
Qed.

Lemma baseline_is_annotated_one_witness :
  all_positive tied
  /\ exists w,
       run strict (fun _ => true) tied = (w, Ok tt)
       /\ hd_error (chart_annotations (chart w))
          = Some ("1.00x"%string, (PyInt 1, PyFloat one),
                  ("offset points"%string, (0, 10), "center"%string)).
Proof.
  assert (Hpos : all_positive tied) by (repeat constructor).
  split; [exact Hpos|].
  eexists. split; [vm_compute; reflexivity|].
  apply (baseline_is_annotated_one strict (fun _ => true)
           {| workers := 1; elapsed_seconds := of_decimal 8 0 |}
           [ {| workers := 2; elapsed_seconds := of_decimal 7 0 |};
             {| workers := 4; elapsed_seconds := of_decimal 7000000000000001 15 |} ]
           _ Hpos).
  vm_compute. reflexivity.
Defined.



(** X12. When the plotting library refuses the worker counts at the first
    [plot], the script ends with the library's error right after the
    figure was created: no curve is drawn, no image is written and
    nothing is printed. *)
Theorem first_plot_refused (lib : library) (writable : string -> bool)
    (ms : list Measurement) (e : library_error) :
  ms <> [] ->
  no_zero ms ->
  blocked lib [Figure (10, 6)] (ideal_curve (map workers ms)) = Some e ->
  run lib writable ms
  = ({| chart := [Figure (10, 6)]; files := []; stdout := [] |}, Raise (exn_of e)).
Proof.
  intros Hne Hnz Hb. destruct ms as [|m0 rest]; [congruence|].
  unfold run.
  change (map elapsed_seconds (m0 :: rest))
    with (elapsed_seconds m0 :: map elapsed_seconds rest).
  unfold script.
  rewrite (bind_ok _ _ _ _ _ (speedups_ok _ _ initial_world
                                (no_zero_times (m0 :: rest) Hnz))).
  unfold render.
  unfold bind at 1, plt.figure. rewrite record_run.
  apply bind_raise.
  unfold plt.plot, with_chart, initial_world. cbn [chart app].
  fold (ideal_curve (map workers (m0 :: rest))). rewrite Hb. reflexivity.
Qed.

Lemma first_plot_refused_witness :
  run strict (fun _ => true)
    [ {| workers := 10 ^ 400; elapsed_seconds := one |} ]
  = ({| chart := [Figure (10, 6)]; files := []; stdout := [] |},
     Raise OverflowError).
Proof.
  apply (first_plot_refused strict (fun _ => true)
           [ {| workers := 10 ^ 400; elapsed_seconds := one |} ] Overflow).
  - discriminate.
  - repeat constructor.
  - vm_compute. reflexivity.
Defined.
